(** * MESA: a shallow embedding of the evaluation pipelines

    The development follows the Python sources of the repository:
    [model_handler.py], [simple_baseline_pipeline.py], [baseline_pipeline.py],
    [eval_pipeline.py], [panel.py] and [fitting.py].

    Conventions of the embedding.
    - Python values are the inductive type [pyval]; dictionaries are
      association lists in insertion order.
    - Python [str] is a Rocq [string] (a sequence of bytes); the string
      methods are modelled on ASCII.
    - Python [float] is modelled by exact rationals [Q]: rounding, NaN and
      the infinities are outside the model.
    - Exceptions are values of [pyexn] carried by [result].
    - The language-model service, the clock and the random generator are the
      only effects; they are threaded through [world] by the monad [M].
    - An f-string is kept as the sequence of its literal pieces and of the
      values interpolated into it ([fstring]); rendering a value with
      [str()] is not modelled, except for integers. *)

From Stdlib Require Import ZArith QArith Qabs Qround List String Ascii Bool Lia Lqa.
From Stdlib Require Import DecimalString Permutation.
Import ListNotations.

Local Open Scope string_scope.
Local Open Scope Z_scope.

(** ** Exceptions and results *)

Inductive pyexn : Type :=
| KeyError
| AttributeError
| TypeError
| ValueError
| IndexError
| ApiError (msg : string).

(** [str(exc)]: the message of an exception of the client; the built-in
    exceptions of the model are never raised inside a handler that reads
    their message. *)
Definition exn_str (e : pyexn) : string :=
  match e with
  | ApiError msg => msg
  | _ => EmptyString
  end.

Inductive result (A : Type) : Type :=
| Ok (a : A)
| Raise (e : pyexn).

Arguments Ok {A} a.
Arguments Raise {A} e.

Definition is_ok {A} (r : result A) : bool :=
  match r with Ok _ => true | Raise _ => false end.

(** ** Python values *)

#[local] Set Warnings "-register-all".

Inductive pyval : Type :=
| PNone
| PBool (b : bool)
| PInt (z : Z)
| PFloat (q : Q)
| PStr (s : string)
| PList (l : list pyval)
| PDict (d : list (string * pyval)).

Definition pydict := list (string * pyval).

(** [d.get(k)]: the value stored under [k], if any. *)
Fixpoint dict_find (d : pydict) (k : string) : option pyval :=
  match d with
  | [] => None
  | (k', v) :: d' => if String.eqb k' k then Some v else dict_find d' k
  end.

(** [d[k] = v]: an existing key keeps its position, a new key is appended. *)
Fixpoint dict_set (d : pydict) (k : string) (v : pyval) : pydict :=
  match d with
  | [] => [(k, v)]
  | (k', v') :: d' =>
      if String.eqb k' k then (k', v) :: d' else (k', v') :: dict_set d' k v
  end.

(** [d[k]] raises [KeyError] on a missing key. *)
Definition dict_getitem (d : pydict) (k : string) : result pyval :=
  match dict_find d k with
  | Some v => Ok v
  | None => Raise KeyError
  end.

(** [v[k]] for a string key [k], on an arbitrary value: only a dictionary
    supports it; a list or a string indexed by a string and a value that is
    not subscriptable raise [TypeError]. *)
Definition py_getitem (v : pyval) (k : string) : result pyval :=
  match v with
  | PDict d => dict_getitem d k
  | _ => Raise TypeError
  end.

(** [v.get(k, dflt)]: only dictionaries have the method. *)
Definition py_get (v : pyval) (k : string) (dflt : pyval) : result pyval :=
  match v with
  | PDict d =>
      match dict_find d k with
      | Some x => Ok x
      | None => Ok dflt
      end
  | _ => Raise AttributeError
  end.

(** [v.items()]: only dictionaries have the method. *)
Definition py_items (v : pyval) : result (list (string * pyval)) :=
  match v with
  | PDict d => Ok d
  | _ => Raise AttributeError
  end.

(** Truth value of a Python object, as [if v] and [not v] test it. *)
Definition py_truthy (v : pyval) : bool :=
  match v with
  | PNone => false
  | PBool b => b
  | PInt z => negb (Z.eqb z 0)
  | PFloat q => negb (Qeq_bool q 0)
  | PStr s => negb (String.eqb s EmptyString)
  | PList l => match l with [] => false | _ => true end
  | PDict d => match d with [] => false | _ => true end
  end.

(** The number a value stands for in arithmetic; [bool] is a subclass of
    [int].  Every other value makes an arithmetic operator with a number
    raise [TypeError]. *)
Definition py_num (v : pyval) : result Q :=
  match v with
  | PBool b => Ok (if b then 1%Q else 0%Q)
  | PInt z => Ok (inject_Z z)
  | PFloat q => Ok q
  | _ => Raise TypeError
  end.

(** ** Strings *)

Definition nl : string := String "010"%char EmptyString.
Definition dquote : ascii := "034"%char.

(** [qt s] is [s] with every apostrophe replaced by a double quote; it is
    only a way to write literals that contain double quotes. *)
Fixpoint qt (s : string) : string :=
  match s with
  | EmptyString => EmptyString
  | String c s' => String (if Ascii.eqb c "'"%char then dquote else c) (qt s')
  end.

(** [str(z)] for an integer. *)
Definition str_of_Z (z : Z) : string := NilZero.string_of_int (Z.to_int z).

(** ASCII white space as [str.strip()] and [str.isspace()] see it:
    tab, line feed, vertical tab, form feed, carriage return, the four
    separators 28-31 and the space. *)
Definition is_space (c : ascii) : bool :=
  let n := nat_of_ascii c in
  ((9 <=? n) && (n <=? 13))%nat || ((28 <=? n) && (n <=? 32))%nat.

Fixpoint mem_char (c : ascii) (chars : string) : bool :=
  match chars with
  | EmptyString => false
  | String c' chars' => Ascii.eqb c c' || mem_char c chars'
  end.

(** [lstrip]: drop the longest prefix made of characters accepted by [p]. *)
Fixpoint lstrip_by (p : ascii -> bool) (s : string) : string :=
  match s with
  | EmptyString => EmptyString
  | String c s' => if p c then lstrip_by p s' else s
  end.

(** [rstrip]: drop the longest suffix made of characters accepted by [p]. *)
Fixpoint rstrip_by (p : ascii -> bool) (s : string) : string :=
  match s with
  | EmptyString => EmptyString
  | String c s' =>
      match rstrip_by p s' with
      | EmptyString => if p c then EmptyString else String c EmptyString
      | r => String c r
      end
  end.

(** [s.strip()]. *)
Definition strip (s : string) : string :=
  rstrip_by is_space (lstrip_by is_space s).

(** [s.strip(chars)]: [chars] is a SET of characters; leading and trailing
    characters that belong to it are removed. *)
Definition strip_chars (s chars : string) : string :=
  rstrip_by (fun c => mem_char c chars) (lstrip_by (fun c => mem_char c chars) s).

(** [sub in s]. *)
Fixpoint contains (sub s : string) : bool :=
  String.prefix sub s ||
  match s with
  | EmptyString => false
  | String _ s' => contains sub s'
  end.

Definition upper_char (c : ascii) : ascii :=
  let n := nat_of_ascii c in
  if ((97 <=? n) && (n <=? 122))%nat then ascii_of_nat (n - 32) else c.

(** [s.upper()] on ASCII letters. *)
Fixpoint upper (s : string) : string :=
  match s with
  | EmptyString => EmptyString
  | String c s' => String (upper_char c) (upper s')
  end.

(** ** [json.loads]

    Modelled from the JSON grammar as Python's [json] module decodes it
    (the module is library code, not part of the repository): objects,
    arrays, strings with their escapes, numbers, [true], [false] and [null],
    with white space between tokens.  A number without fraction and exponent
    decodes to an [int], any other to a [float] (here its exact decimal
    value).  A repeated key keeps its first position and its last value.
    The constants [NaN], [Infinity] and [-Infinity], which Python also
    accepts, have no counterpart in [Q] and are not decoded.
    [None] stands for [json.JSONDecodeError]. *)

Module Json.

Definition is_ws (c : ascii) : bool :=
  let n := nat_of_ascii c in
  ((n =? 32) || (n =? 9) || (n =? 10) || (n =? 13))%nat.

Definition skip_ws (s : string) : string := lstrip_by is_ws s.

Definition digit_val (c : ascii) : option Z :=
  let n := nat_of_ascii c in
  if ((48 <=? n) && (n <=? 57))%nat then Some (Z.of_nat (n - 48)) else None.

Definition hex_val (c : ascii) : option Z :=
  let n := nat_of_ascii c in
  if ((48 <=? n) && (n <=? 57))%nat then Some (Z.of_nat (n - 48))
  else if ((97 <=? n) && (n <=? 102))%nat then Some (Z.of_nat (n - 87))
  else if ((65 <=? n) && (n <=? 70))%nat then Some (Z.of_nat (n - 55))
  else None.

(** The longest run of decimal digits at the head of [s]: its value, its
    length and the rest. *)
Fixpoint digits (s : string) (acc : Z) (len : Z) : Z * Z * string :=
  match s with
  | EmptyString => (acc, len, s)
  | String c s' =>
      match digit_val c with
      | Some d => digits s' (10 * acc + d) (len + 1)
      | None => (acc, len, s)
      end
  end.

(** Integer part: [0] or a non-zero digit followed by digits. *)
Definition int_part (s : string) : option (Z * string) :=
  match s with
  | String c s' =>
      match digit_val c with
      | Some 0 => Some (0, s')
      | Some _ => let '(v, _, r) := digits s 0 0 in Some (v, r)
      | None => None
      end
  | EmptyString => None
  end.

(** Optional fraction [.digits]: the digits' value and count, when there
    is a dot followed by a digit; nothing is consumed otherwise. *)
Definition frac_part (s : string) : option (Z * Z * string) :=
  match s with
  | String "." s' =>
      let '(v, len, r) := digits s' 0 0 in
      if len =? 0 then None else Some (v, len, r)
  | _ => None
  end.

(** Optional exponent [e], [e+] or [e-] followed by digits. *)
Definition exp_part (s : string) : option (Z * string) :=
  match s with
  | String c s' =>
      if Ascii.eqb c "e" || Ascii.eqb c "E" then
        let '(sign, s'') :=
          match s' with
          | String "-" t => (-1, t)
          | String "+" t => (1, t)
          | _ => (1, s')
          end in
        let '(v, len, r) := digits s'' 0 0 in
        if len =? 0 then None else Some (sign * v, r)
      else None
  | EmptyString => None
  end.

Definition number (s : string) : option (pyval * string) :=
  let '(neg, s1) :=
    match s with
    | String "-" t => (true, t)
    | _ => (false, s)
    end in
  match int_part s1 with
  | None => None
  | Some (i, s2) =>
      let sg (z : Z) := if neg then - z else z in
      match frac_part s2, exp_part s2 with
      | None, None => Some (PInt (sg i), s2)
      | None, Some (e, s3) =>
          Some (PFloat (Qred (inject_Z (sg i) * Qpower 10 e)), s3)
      | Some (f, len, s3), _ =>
          let m := sg (i * 10 ^ len + f) in
          match exp_part s3 with
          | None => Some (PFloat (Qred (inject_Z m * Qpower 10 (- len))), s3)
          | Some (e, s4) =>
              Some (PFloat (Qred (inject_Z m * Qpower 10 (e - len))), s4)
          end
      end
  end.

Definition byte (z : Z) : ascii := ascii_of_nat (Z.to_nat z).

(** UTF-8 encoding of a code point. *)
Definition utf8 (cp : Z) : string :=
  if cp <? 128 then String (byte cp) EmptyString
  else if cp <? 2048 then
    String (byte (192 + cp / 64)) (String (byte (128 + cp mod 64)) EmptyString)
  else if cp <? 65536 then
    String (byte (224 + cp / 4096))
      (String (byte (128 + (cp / 64) mod 64))
         (String (byte (128 + cp mod 64)) EmptyString))
  else
    String (byte (240 + cp / 262144))
      (String (byte (128 + (cp / 4096) mod 64))
         (String (byte (128 + (cp / 64) mod 64))
            (String (byte (128 + cp mod 64)) EmptyString))).

Definition hex4 (s : string) : option (Z * string) :=
  match s with
  | String a (String b (String c (String d r))) =>
      match hex_val a, hex_val b, hex_val c, hex_val d with
      | Some x, Some y, Some z, Some w =>
          Some (((x * 16 + y) * 16 + z) * 16 + w, r)
      | _, _, _, _ => None
      end
  | _ => None
  end.

(** The code point of a [\u] escape of which [s] follows the [u]: a high
    surrogate followed by an escaped low surrogate is one code point. *)
Definition unicode_escape (s : string) : option (Z * string) :=
  match hex4 s with
  | None => None
  | Some (hi, r) =>
      if (55296 <=? hi) && (hi <=? 56319) then
        match r with
        | String "\" (String "u" r') =>
            match hex4 r' with
            | Some (lo, r'') =>
                if (56320 <=? lo) && (lo <=? 57343)
                then Some (65536 + (hi - 55296) * 1024 + (lo - 56320), r'')
                else Some (hi, r)
            | None => Some (hi, r)
            end
        | _ => Some (hi, r)
        end
      else Some (hi, r)
  end.

Definition simple_escape (c : ascii) : option ascii :=
  if Ascii.eqb c dquote then Some dquote
  else if Ascii.eqb c "\" then Some "\"%char
  else if Ascii.eqb c "/" then Some "/"%char
  else if Ascii.eqb c "b" then Some "008"%char
  else if Ascii.eqb c "f" then Some "012"%char
  else if Ascii.eqb c "n" then Some "010"%char
  else if Ascii.eqb c "r" then Some "013"%char
  else if Ascii.eqb c "t" then Some "009"%char
  else None.

(** The body of a string literal, after its opening quote.  Control
    characters are refused, as the strict decoder does. *)
Fixpoint string_body (fuel : nat) (s : string) : option (string * string) :=
  match fuel with
  | O => None
  | S fuel' =>
      match s with
      | EmptyString => None
      | String c s' =>
          if Ascii.eqb c dquote then Some (EmptyString, s')
          else if Ascii.eqb c "\" then
            match s' with
            | String "u" s'' =>
                match unicode_escape s'' with
                | None => None
                | Some (cp, r) =>
                    match string_body fuel' r with
                    | None => None
                    | Some (body, rest) => Some (utf8 cp ++ body, rest)
                    end
                end
            | String e s'' =>
                match simple_escape e with
                | None => None
                | Some x =>
                    match string_body fuel' s'' with
                    | None => None
                    | Some (body, rest) => Some (String x body, rest)
                    end
                end
            | EmptyString => None
            end
          else if (nat_of_ascii c <? 32)%nat then None
          else
            match string_body fuel' s' with
            | None => None
            | Some (body, rest) => Some (String c body, rest)
            end
      end
  end.

Definition literal (word : string) (v : pyval) (s : string)
  : option (pyval * string) :=
  if String.prefix word s
  then Some (v, String.substring (String.length word)
                  (String.length s - String.length word) s)
  else None.

(** A value, the elements of an array after its bracket and the members
    of an object after its brace. *)
Fixpoint value (fuel : nat) (s : string) : option (pyval * string) :=
  match fuel with
  | O => None
  | S fuel' =>
      match s with
      | EmptyString => None
      | String c s' =>
          if Ascii.eqb c dquote then
            match string_body (String.length s) s' with
            | None => None
            | Some (body, rest) => Some (PStr body, rest)
            end
          else if Ascii.eqb c "{" then
            match skip_ws s' with
            | String "}" rest => Some (PDict [], rest)
            | s'' => members fuel' s'' []
            end
          else if Ascii.eqb c "[" then
            match skip_ws s' with
            | String "]" rest => Some (PList [], rest)
            | s'' => elements fuel' s'' []
            end
          else if Ascii.eqb c "n" then literal "null" PNone s
          else if Ascii.eqb c "t" then literal "true" (PBool true) s
          else if Ascii.eqb c "f" then literal "false" (PBool false) s
          else number s
      end
  end

with elements (fuel : nat) (s : string) (acc : list pyval)
  : option (pyval * string) :=
  match fuel with
  | O => None
  | S fuel' =>
      match value fuel' s with
      | None => None
      | Some (v, r) =>
          match skip_ws r with
          | String "," r' => elements fuel' (skip_ws r') (v :: acc)
          | String "]" r' => Some (PList (rev (v :: acc)), r')
          | _ => None
          end
      end
  end

with members (fuel : nat) (s : string) (acc : pydict)
  : option (pyval * string) :=
  match fuel with
  | O => None
  | S fuel' =>
      match s with
      | String c s' =>
          if Ascii.eqb c dquote then
            match string_body (String.length s) s' with
            | None => None
            | Some (key, r) =>
                match skip_ws r with
                | String ":" r' =>
                    match value fuel' (skip_ws r') with
                    | None => None
                    | Some (v, r'') =>
                        match skip_ws r'' with
                        | String "," t =>
                            members fuel' (skip_ws t) (dict_set acc key v)
                        | String "}" t => Some (PDict (dict_set acc key v), t)
                        | _ => None
                        end
                    end
                | _ => None
                end
            end
          else None
      | EmptyString => None
      end
  end.

(** [json.loads(s)]: one value surrounded by optional white space. *)
Definition loads (s : string) : option pyval :=
  match value (2 * String.length s + 2) (skip_ws s) with
  | Some (v, rest) =>
      match skip_ws rest with
      | EmptyString => Some v
      | _ => None
      end
  | None => None
  end.

End Json.

(** ** The outside world *)

(** An f-string: literal pieces and interpolated values, in order. *)
Inductive frag : Type :=
| Lit (s : string)
| Val (v : pyval).

Definition fstring := list frag.

(** One entry of the [messages] list: [{"role": ..., "content": ...}]. *)
Record message : Type := Message { role : string; content : fstring }.

(** The keyword arguments of [client.chat.completions.create] that vary. *)
Record request : Type :=
  Request { req_model : string; req_messages : list message; req_max_tokens : Z }.

(** The completion object is represented by the text it is read for,
    [response.choices[0].message.content] (one choice is requested). *)
Record response : Type := Response { choice_content : string }.

(** What the service does with one request: it completes it, or the client
    raises an exception, of which only the message [str(exc)] matters. *)
Inductive api_outcome : Type :=
| Completed (r : response)
| Failed (message : string).

Inductive event : Type :=
| Called (r : request)
| Slept (seconds : Q).

(** The state the effects act on: how many requests were sent, how many
    random numbers were drawn, and the log of requests and sleeps. *)
Record world : Type :=
  World { api_calls : nat; draws : nat; log : list event }.

Definition world0 : world := World 0 0 [].

(** Computations that read and change the world and may raise. *)
Definition M (A : Type) : Type := world -> result A * world.

Definition ret {A} (a : A) : M A := fun w => (Ok a, w).

Definition raise {A} (e : pyexn) : M A := fun w => (Raise e, w).

Definition bind {A B} (m : M A) (k : A -> M B) : M B :=
  fun w =>
    match m w with
    | (Ok a, w') => k a w'
    | (Raise e, w') => (Raise e, w')
    end.

Definition lift {A} (r : result A) : M A := fun w => (r, w).

Declare Scope py_scope.
Delimit Scope py_scope with py.
Notation "x <- m ;; k" := (bind m (fun x => k))
  (at level 100, m at next level, right associativity) : py_scope.
Notation "' p <- m ;; k" := (bind m (fun x => match x with p => k end))
  (at level 100, p pattern, m at next level, right associativity) : py_scope.
Notation "m ;; k" := (bind m (fun _ => k))
  (at level 100, right associativity) : py_scope.
Local Open Scope py_scope.

(** [try: body / except Exception as exc: handler exc]. *)
Definition try_except {A} (body : M A) (handler : pyexn -> M A) : M A :=
  fun w =>
    match body w with
    | (Ok a, w') => (Ok a, w')
    | (Raise e, w') => handler e w'
    end.

(** [try: body / finally: fin]: [fin] runs however [body] ends; an
    exception of [fin] replaces the outcome of [body]. *)
Definition try_finally {A} (body : M A) (fin : M unit) : M A :=
  fun w =>
    let '(r, w') := body w in
    match fin w' with
    | (Ok _, w'') => (r, w'')
    | (Raise e, w'') => (Raise e, w'')
    end.

(** How the body of a loop inside a function ends. *)
Inductive control (A : Type) : Type :=
| Next
| Break
| Return (a : A).

Arguments Next {A}.
Arguments Break {A}.
Arguments Return {A} a.

(** [range(n)]. *)
Definition range (n : Z) : list Z := map Z.of_nat (seq 0 (Z.to_nat n)).

(** [time.sleep(d)] refuses a negative duration. *)
Definition sleep (d : Q) : M unit :=
  fun w =>
    if Qle_bool 0 d
    then (Ok tt, World (api_calls w) (draws w) (log w ++ [Slept d]))
    else (Raise ValueError, w).

(** [random.randint(a, b)], both ends included; [entropy n] is the raw
    [n]-th number of the generator. *)
Definition randint (entropy : nat -> Z) (a b : Z) : M Z :=
  fun w =>
    (Ok (a + entropy (draws w) mod (b - a + 1)),
     World (api_calls w) (S (draws w)) (log w)).

(** ** model_handler.py *)

Module ModelHandler.
Section WithService.

(** The service behind the client: what the [n]-th request sent since
    the start yields, a completion or an exception. *)
Variable client : nat -> request -> api_outcome.
Variable entropy : nat -> Z.

(** [_call_gpt]: one request; the sampling parameters are constants. *)
Definition _call_gpt (model : string) (messages : list message)
           (max_tokens : Z) : M response :=
  fun w =>
    let r := Request model messages max_tokens in
    (match client (api_calls w) r with
     | Completed response => Ok response
     | Failed message => Raise (ApiError message)
     end,
     World (S (api_calls w)) (draws w) (log w ++ [Called r])).

(** The body of the [for] loop of [call_model_with_retry]. *)
Definition attempt_body (messages : list message) (model : string)
           (max_tokens : Z) (base_delay : Q) (attempt : Z)
  : M (control (option response)) :=
  try_finally
    (try_except
       (response <- _call_gpt model messages max_tokens ;;
        ret (Return (Some response)))
       (fun exc =>
          if contains "429" (exn_str exc) then
            r <- randint entropy 0 1000 ;;
            let sleep_time := (inject_Z (2 ^ (attempt + 1)) + inject_Z r / 1000)%Q in
            sleep sleep_time ;;
            ret Next
          else ret Break))
    (sleep base_delay).

Fixpoint for_attempts (messages : list message) (model : string)
         (max_tokens : Z) (base_delay : Q) (attempts : list Z)
  : M (option response) :=
  match attempts with
  | [] => ret None
  | attempt :: rest =>
      c <- attempt_body messages model max_tokens base_delay attempt ;;
      match c with
      | Next => for_attempts messages model max_tokens base_delay rest
      | Break => ret None
      | Return r => ret r
      end
  end.

(** [call_model_with_retry(client, messages, model, max_tokens,
    max_attempts, base_delay)]; [None] is the value the function returns
    when no attempt produced a response. *)
Definition call_model_with_retry (messages : list message) (model : string)
           (max_tokens : Z) (max_attempts : Z) (base_delay : Q)
  : M (option response) :=
  for_attempts messages model max_tokens base_delay (range max_attempts).

(** The call as the pipelines make it: six attempts, three seconds. *)
Definition call_model (messages : list message) (model : string)
           (max_tokens : Z) : M (option response) :=
  call_model_with_retry messages model max_tokens 6 3.

End WithService.
End ModelHandler.

(** ** What every call site does with a response *)

(** [response_raw.choices[0].message.content]: the attribute access fails
    on [None]. *)
Definition message_content (response_raw : option response) : result string :=
  match response_raw with
  | Some r => Ok (choice_content r)
  | None => Raise AttributeError
  end.

(** [text.strip("```json").strip("```").strip()]. *)
Definition strip_code_fence (text : string) : string :=
  strip (strip_chars (strip_chars text "```json") "```").

(** [int(s)] for a string: optional white space around an optional sign
    and decimal digits, single underscores allowed between digits. *)
Fixpoint int_digits (s : string) (acc : Z) (after_digit : bool) : option Z :=
  match s with
  | EmptyString => if after_digit then Some acc else None
  | String c s' =>
      match Json.digit_val c with
      | Some d => int_digits s' (10 * acc + d) true
      | None =>
          if Ascii.eqb c "_" && after_digit then
            match s' with
            | String c' _ =>
                match Json.digit_val c' with
                | Some _ => int_digits s' acc false
                | None => None
                end
            | EmptyString => None
            end
          else None
      end
  end.

Definition int_of_string (s : string) : option Z :=
  match strip s with
  | String "-" t => option_map Z.opp (int_digits t 0 false)
  | String "+" t => int_digits t 0 false
  | t => int_digits t 0 false
  end.

(** [int(v)]. *)
Definition py_int (v : pyval) : result Z :=
  match v with
  | PBool b => Ok (if b then 1 else 0)
  | PInt z => Ok z
  | PFloat q => Ok (Z.quot (Qnum q) (Zpos (Qden q)))
  | PStr s =>
      match int_of_string s with
      | Some z => Ok z
      | None => Raise ValueError
      end
  | _ => Raise TypeError
  end.

(** A [for] loop that appends one result per element. *)
Fixpoint for_each {A B} (f : A -> M B) (l : list A) : M (list B) :=
  match l with
  | [] => ret []
  | a :: l' => b <- f a ;; bs <- for_each f l' ;; ret (b :: bs)
  end.

(** The sample handed to [run]: [{"summary": ..., "transcript": ...}]. *)
Record sample : Type := Sample { summary : pyval; transcript : pyval }.

(** The fields of a pipeline object that its methods read. *)
Record pipeline : Type :=
  Pipeline {
    criteria : pydict;
    in_context_learning_samples : pydict;
    model_id : string;
    single_model : bool;
    multi_family : bool
  }.

Definition two_messages (system_prompt user_prompt : fstring) : list message :=
  [Message "system" system_prompt; Message "user" user_prompt].

Definition zeroed_score : pyval :=
  PDict [("reasoning", PStr EmptyString); ("confidence", PInt 0); ("rating", PInt 0)].

(** ** simple_baseline_pipeline.py *)

Module SimpleBaselinePipeline.
Section WithService.

Variable client : nat -> request -> api_outcome.
Variable entropy : nat -> Z.
Variable self : pipeline.

Definition system_prompt : fstring :=
  [Lit ("You are an expert in meeting summarization quality assessment. " ++
        "You will see multiple criteria definitions and evaluate them in one shot.")].

Definition combined_criteria (criteria_dict : pydict) : fstring :=
  flat_map (fun '(crit, definition) =>
              [Lit crit; Lit ": "; Val definition; Lit nl]) criteria_dict.

Definition user_prompt (data : sample) (criteria_dict : pydict) : fstring :=
  ([Lit "Transcript: <"; Val (transcript data); Lit (">" ++ nl);
    Lit "Summary: <"; Val (summary data); Lit (">" ++ nl);
    Lit ("Criteria Definitions:" ++ nl)]
   ++ combined_criteria criteria_dict
   ++ [Lit (nl ++ nl ++
            "Please return a JSON object mapping each criterion name to:" ++ nl ++
            "{" ++ nl ++
            qt "   'reasoning': '<chain-of-thought>'," ++ nl ++
            qt "   'confidence': <0-10>," ++ nl ++
            qt "   'rating': <0-5>" ++ nl ++
            "}" ++ nl ++
            "No extra text outside the JSON.")])%list.

(** [pipeline(data, criteria_dict)]. *)
Definition pipeline (data : sample) (criteria_dict : pydict) : M pyval :=
  let message := two_messages system_prompt (user_prompt data criteria_dict) in
  response_raw <- ModelHandler.call_model client entropy message (model_id self) 4000 ;;
  response_text <- lift (message_content response_raw) ;;
  let response_text := strip_code_fence (strip response_text) in
  match Json.loads response_text with
  | Some parsed => ret parsed
  | None => ret (PDict [])
  end.

(** The dictionary built for one item of the reply; its entries are
    evaluated in the order they are written. *)
Definition assessment (crit_name : string) (details : pyval) : M pyval :=
  reasoning <- lift (py_get details "reasoning" (PStr EmptyString)) ;;
  c <- lift (py_get details "confidence" (PInt 0)) ;;
  confidence <- lift (py_int c) ;;
  r <- lift (py_get details "rating" (PInt 0)) ;;
  rating <- lift (py_int r) ;;
  ret (PDict [("criteria", PStr crit_name);
              ("selection", PStr EmptyString);
              ("filter", PStr EmptyString);
              ("score", PDict [("reasoning", reasoning);
                               ("confidence", PInt confidence);
                               ("rating", PInt rating)])]).

(** [run(sample)]: one entry per item of the decoded reply. *)
Definition run (sample : sample) : M (list pyval) :=
  score <- pipeline sample (criteria self) ;;
  items <- lift (py_items score) ;;
  for_each (fun '(crit_name, details) => assessment crit_name details) items.

End WithService.
End SimpleBaselinePipeline.

(** ** baseline_pipeline.py *)

Module BaselinePipeline.
Section WithService.

Variable client : nat -> request -> api_outcome.
Variable entropy : nat -> Z.
Variable self : pipeline.

Definition system_prompt : fstring :=
  [Lit ("You are an expert in evaluating meeting summaries for specific types of errors." ++
        "You will be given the transcript and summary, plus one criterion definition." ++
        "Output strictly in JSON with keys: reasoning, confidence, rating.")].

Definition user_prompt (data : sample) (criteria_name : string)
           (definition_text : pyval) : fstring :=
  [Lit "Transcript: <"; Val (transcript data); Lit (">" ++ nl);
   Lit "Summary: <"; Val (summary data); Lit (">" ++ nl);
   Lit "Criterion: "; Lit criteria_name; Lit ": "; Val definition_text; Lit nl;
   Lit ("Rate the summary from 0 to 5 (0=best, 5=worst). " ++
        "Also provide reasoning and a confidence from 0 to 10. Return strictly JSON:" ++ nl ++
        "{" ++ nl ++
        qt "  'reasoning': '<your reasoning>'," ++ nl ++
        qt "  'confidence': <0-10>," ++ nl ++
        qt "  'rating': <0-5>" ++ nl ++
        "}")].

(** [pipeline(data, criteria_name, definition_text)]. *)
Definition pipeline (data : sample) (criteria_name : string)
           (definition_text : pyval) : M pyval :=
  let message :=
    two_messages system_prompt (user_prompt data criteria_name definition_text) in
  response_raw <- ModelHandler.call_model client entropy message (model_id self) 4000 ;;
  response_text <- lift (message_content response_raw) ;;
  let response_text := strip_code_fence (strip response_text) in
  match Json.loads response_text with
  | Some parsed => ret parsed
  | None => ret zeroed_score
  end.

Definition assessment (criteria_name : string) (score : pyval) : pyval :=
  PDict [("criteria", PStr criteria_name);
         ("selection", PStr EmptyString);
         ("filter", PStr EmptyString);
         ("score", score)].

(** [run(sample)]: one call and one entry per criterion. *)
Definition run (sample : sample) : M (list pyval) :=
  for_each (fun '(criteria_name, definition_text) =>
              score <- pipeline sample criteria_name definition_text ;;
              ret (assessment criteria_name score))
           (criteria self).

End WithService.
End BaselinePipeline.

(** ** panel.py *)

(** Modelled from the spec: the enumeration [ModelType] of [model_enums],
    a module of the repository that is not among the sources; the panel
    only uses its member [GPT4o] as the "model identifier" of an agent. *)
Inductive ModelType : Type := GPT4o.

Module Panel.

(** An agent: [{"id", "model", "memory", "current_thought"}]. *)
Record agent : Type :=
  Agent { id : Z; model : ModelType; memory : list pyval; current_thought : string }.

(** The attributes of a panel object that change or are read. *)
Record panel : Type :=
  MkPanel {
    size : Z;
    agents : list agent;
    history : list pyval;
    tmp_agents : list agent;
    panel_model_id : string
  }.

(** [_set_up_panel]: append [size] fresh agents. *)
Definition _set_up_panel (p : panel) : panel :=
  MkPanel (size p)
          (agents p ++ map (fun count => Agent count GPT4o [] EmptyString) (range (size p)))
          (history p) (tmp_agents p) (panel_model_id p).

(** [Panel(client, model_id, multi_family, size=3)]. *)
Definition init (model_id : string) (multi_family : bool) (size : Z) : panel :=
  _set_up_panel (MkPanel size [] [] [] model_id).

Definition entry (stage agent_label : string) (output : pyval) : pyval :=
  PDict [("stage", PStr stage); ("agent", PStr agent_label); ("output", output)].

Section WithService.

Variable client : nat -> request -> api_outcome.
Variable entropy : nat -> Z.

(** [call_gpt(system_prompt, user_prompt, interprete_literal)]. *)
Definition call_gpt (self : panel) (system_prompt user_prompt : fstring)
           (interprete_literal : bool) : M pyval :=
  let message := two_messages system_prompt user_prompt in
  response_raw <-
    ModelHandler.call_model client entropy message (panel_model_id self) 4000 ;;
  raw_text <- lift (message_content response_raw) ;;
  let raw_text := strip raw_text in
  if interprete_literal then
    let raw_text := strip_code_fence raw_text in
    match Json.loads raw_text with
    | Some return_json => ret return_json
    | None => ret (PStr raw_text)
    end
  else ret (PStr raw_text).

(** [process(agent, ...)]: the agent is not consulted. *)
Definition process (self : panel) (a : agent) (system_prompt user_prompt : fstring)
           (interprete_literal : bool) : M pyval :=
  call_gpt self system_prompt user_prompt interprete_literal.

Definition mod_agent0 : agent := Agent 0 GPT4o [] EmptyString.

(** One round of [seek_brainstorming]: every agent answers the same
    prompts; the outputs and the log entries, in order. *)
Definition brainstorming_round (self : panel) (agent_system_prompt
           agent_user_prompt : fstring) (round_num : Z)
  : M (list (pyval * pyval)) :=
  for_each
    (fun a =>
       agent_output <- process self a agent_system_prompt agent_user_prompt false ;;
       ret (agent_output,
            entry ("Agent Round " ++ str_of_Z (round_num + 1) ++ ", Agent "
                     ++ str_of_Z (id a))
                  ("Agent " ++ str_of_Z (id a))
                  agent_output))
    (agents self).

(** [seek_brainstorming(system_prompt, user_prompt, rounds=1)]: the final
    draft, the protocol log and the panel with its moderator recorded. *)
Definition seek_brainstorming (self : panel) (system_prompt user_prompt : fstring)
           (rounds : Z) : M (pyval * list pyval * panel) :=
  let mod_agent := mod_agent0 in
  let self :=
    MkPanel (size self) (agents self) (history self)
            (tmp_agents self ++ [mod_agent]) (panel_model_id self) in
  initial_draft <- process self mod_agent system_prompt user_prompt false ;;
  let protocol_log := [entry "Initial Draft" "Moderator" initial_draft] in
  let agent_system_prompt :=
    ([Lit "Following you will work on this task: *"] ++ system_prompt ++
     [Lit ("* " ++
           "You will be given an initial draft and you should challenge it and possibly improve it.")])%list in
  let agent_user_prompt :=
    ([Lit "This is your task: ***"] ++ user_prompt ++
     [Lit "***. "; Lit "You are given a headstart: *"; Val initial_draft;
      Lit ("*. " ++
           "Consider it but generate your own improved version. " ++
           "Challenge the headstart draft if necessary. " ++
           "First write out what you think should be improved, then provide a new draft.")])%list in
  per_round <-
    for_each (brainstorming_round self agent_system_prompt agent_user_prompt)
             (range rounds) ;;
  let outputs := List.concat per_round in
  let agent_feedback := map fst outputs in
  let protocol_log := (protocol_log ++ map snd outputs)%list in
  let finalize_system_prompt :=
    ([Lit "Task: *"] ++ system_prompt ++
     [Lit ("*. " ++
           "Now consolidate the feedback from the other agents and produce a final draft.")])%list in
  let finalize_user_prompt :=
    ([Lit "This is your task: ***"] ++ user_prompt ++
     [Lit "***. "; Lit "Consider the original draft *"; Val initial_draft;
      Lit "* and the revisions: **"; Val (PList agent_feedback);
      Lit ("**. " ++ "Produce a final, consolidated version of the draft.")])%list in
  final_draft <- process self mod_agent finalize_system_prompt finalize_user_prompt true ;;
  let protocol_log :=
    (protocol_log ++ [entry "Final Consolidation" "Moderator" final_draft])%list in
  ret (final_draft, protocol_log, self).

(** One round of [seek_conclusion]. *)
Definition conclusion_round (self : panel) (agent_system_prompt
           agent_user_prompt : fstring) (round_num : Z) : M (list pyval) :=
  for_each
    (fun a =>
       output <- process self a agent_system_prompt agent_user_prompt true ;;
       ret (entry ("Scoring Round " ++ str_of_Z (round_num + 1))
                  ("Agent " ++ str_of_Z (id a))
                  output))
    (agents self).

(** [seek_conclusion(system_prompt, user_prompt, rounds=1)]. *)
Definition seek_conclusion (self : panel) (system_prompt user_prompt : fstring)
           (rounds : Z) : M (pyval * list pyval * panel) :=
  let agent_system_prompt :=
    [Lit ("You are an expert in summarizing meetings and are tasked with evaluating the quality of the summary." ++
          "Score the summary with a likert scale between 1 (worst) and 10 (best).")] in
  let agent_user_prompt := user_prompt in
  per_round <-
    for_each (conclusion_round self agent_system_prompt agent_user_prompt)
             (range rounds) ;;
  let protocol_log := List.concat per_round in
  let self :=
    match tmp_agents self with
    | [] => MkPanel (size self) (agents self) (history self)
                    [mod_agent0] (panel_model_id self)
    | _ => self
    end in
  let mod_agent := hd mod_agent0 (tmp_agents self) in
  let finalize_system_prompt :=
    (system_prompt ++
     [Lit (nl ++ "Now that the agents have provided scores, please finalize the conclusion.")])%list in
  let finalize_user_prompt :=
    (user_prompt ++
     [Lit (nl ++ " Agents' feedback: "); Val (PList protocol_log)])%list in
  final_answer <- process self mod_agent finalize_system_prompt finalize_user_prompt true ;;
  let protocol_log :=
    (protocol_log ++ [entry "Final Conclusion" "Moderator" final_answer])%list in
  ret (final_answer, protocol_log, self).

(** [ask(task, system_prompt, user_prompt)]. *)
Definition ask (self : panel) (task : string) (system_prompt user_prompt : fstring)
  : M (pyval * list pyval * panel) :=
  if String.eqb task "brainstorming" then
    seek_brainstorming self system_prompt user_prompt 1
  else if String.eqb task "conclusion" then
    seek_conclusion self system_prompt user_prompt 1
  else ret (PStr EmptyString, [], self).

End WithService.
End Panel.

(** ** eval_pipeline.py *)

Definition rbind {A B} (r : result A) (k : A -> result B) : result B :=
  match r with
  | Ok a => k a
  | Raise e => Raise e
  end.

Notation "x <~ r ;; k" := (rbind r (fun x => k))
  (at level 100, r at next level, right associativity) : py_scope.

(** [v.upper()]: a method of strings. *)
Definition py_upper (v : pyval) : result string :=
  match v with
  | PStr s => Ok (upper s)
  | _ => Raise AttributeError
  end.

Module EvalPipeline.

(** The table used when [importance_weights] is [None]. *)
Definition default_importance_weights : list (string * Q) :=
  [("omission", 1.1%Q); ("hallucination", 1.1%Q); ("irrelevance", 1.1%Q);
   ("repetition", 0.9%Q); ("incoherence", 0.9%Q); ("language", 0.9%Q)].

(** [importance_weights.get(criteria, dflt)]. *)
Fixpoint weights_get (importance_weights : list (string * Q)) (criteria : string)
         (dflt : Q) : Q :=
  match importance_weights with
  | [] => dflt
  | (k, w) :: rest =>
      if String.eqb k criteria then w else weights_get rest criteria dflt
  end.

(** The body of the loop of [compute_quality_score] on the running
    [(numerator, denominator)]. *)
Definition accumulate (importance_weights : list (string * Q)) (acc : Q * Q)
           (entry : pyval) : result (Q * Q) :=
  let '(numerator, denominator) := acc in
  c <~ py_getitem entry "criteria" ;;
  criteria <~ py_upper c ;;
  certainty <~ py_getitem entry "certainty" ;;
  rating <~ py_getitem entry "rating" ;;
  let importance := weights_get importance_weights criteria 1.0%Q in
  certainty <~ py_num certainty ;;
  rating <~ py_num rating ;;
  let weighted_value := (rating * (certainty * importance))%Q in
  Ok ((numerator + weighted_value)%Q, (denominator + certainty * importance)%Q).

Fixpoint accumulate_all (importance_weights : list (string * Q)) (acc : Q * Q)
         (scores : list pyval) : result (Q * Q) :=
  match scores with
  | [] => Ok acc
  | entry :: rest =>
      acc' <~ accumulate importance_weights acc entry ;;
      accumulate_all importance_weights acc' rest
  end.

(** [compute_quality_score(scores, importance_weights=None)]. *)
Definition compute_quality_score (scores : list pyval)
           (importance_weights : option (list (string * Q))) : result Q :=
  let importance_weights :=
    match importance_weights with
    | None => default_importance_weights
    | Some w => w
    end in
  acc <~ accumulate_all importance_weights (0%Q, 0%Q) scores ;;
  let '(numerator, denominator) := acc in
  let impact :=
    if negb (Qeq_bool denominator 0) then (numerator / denominator)%Q else 0%Q in
  let quality := (1 + ((5 - impact) / 5) * 9)%Q in
  Ok quality.

Section WithService.

Variable client : nat -> request -> api_outcome.
Variable entropy : nat -> Z.
Variable self : pipeline.

(** [task_execution(system_prompt, user_prompt)]: the answer and the
    log of how it was obtained. *)
Definition task_execution (system_prompt user_prompt : fstring) : M (pyval * pyval) :=
  if single_model self then
    let message := two_messages system_prompt user_prompt in
    response_raw <- ModelHandler.call_model client entropy message (model_id self) 4000 ;;
    response_text <- lift (message_content response_raw) ;;
    let response_text := strip_code_fence (strip response_text) in
    match Json.loads response_text with
    | Some parsed => ret (parsed, parsed)
    | None => ret (PStr response_text, PStr response_text)
    end
  else
    let panel := Panel.init (model_id self) (multi_family self) 3 in
    '(final_answer, protocol_log, _) <-
      Panel.ask client entropy panel "brainstorming" system_prompt user_prompt ;;
    ret (final_answer, PList protocol_log).

Definition system_prompt0 : fstring :=
  [Lit ("You are a Judge tasked to decide if a given summary has specific errors. " ++
        "You will follow a multi-step process to identify and score these errors.")].

Definition format_step_1 : string :=
  qt "[{'instance': '<text>', 'reasoning': '<reason>', 'certainty': '<0-100>'}, ...]".

Definition format_step_2 : string :=
  qt "[{'instance': '<text>', 'reasoning': '<reason>', 'certainty': '<0-100>', 'error_exists': true}, ...]".

Definition rating_format : string :=
  "{" ++ nl ++
  qt "  'reasoning': '<your reasoning>'," ++ nl ++
  qt "  'confidence': <0-10>," ++ nl ++
  qt "  'rating': <0-5>" ++ nl ++
  "}".

(** [pipeline(data, criteria)]: the three steps for one criterion. *)
Definition pipeline (data : sample) (criteria_name : string)
  : M (pyval * pyval * pyval * pyval) :=
  let system_prompt := system_prompt0 in
  definition <- lift (dict_getitem (criteria self) criteria_name) ;;
  let user_prompt_step_1 :=
    [Lit ("Step 1: Collect potential error instances." ++ nl);
     Lit "Criteria: *** "; Lit criteria_name; Lit ": "; Val definition; Lit (" ***" ++ nl);
     Lit "Summary: ** "; Val (summary data); Lit (" **" ++ nl);
     Lit "Transcript: ** "; Val (transcript data); Lit (" **" ++ nl);
     Lit ("List instances where this error *could* occur. Provide short reasoning and a certainty score (0-100). " ++
          "Return strictly valid JSON with the format:" ++ nl);
     Lit format_step_1] in
  '(list_of_instances, log_instances) <- task_execution system_prompt user_prompt_step_1 ;;
  let user_prompt_step_2 :=
    [Lit ("Step 2: Filter actual errors." ++ nl);
     Lit "Criteria: *** "; Lit criteria_name; Lit ": "; Val definition; Lit (" ***" ++ nl);
     Lit "Potential instances: "; Val list_of_instances; Lit nl;
     Lit ("Decide if each instance is actually an error or not. Return strictly valid JSON with the format:" ++ nl);
     Lit format_step_2] in
  '(list_of_instances_filtered, log_filtered) <-
    task_execution system_prompt user_prompt_step_2 ;;
  let user_prompt_step_3 :=
    [Lit ("Step 3: Rate the summary considering the filtered error instances." ++ nl);
     Lit "Criteria: *** "; Lit criteria_name; Lit ": "; Val definition; Lit (" ***" ++ nl);
     Lit "Summary: ** "; Val (summary data); Lit (" **" ++ nl);
     Lit "Transcript: ** "; Val (transcript data); Lit (" **" ++ nl);
     Lit "Error instances: "; Val list_of_instances_filtered; Lit nl;
     Lit ("Rate how badly these errors affect the summary on a scale 0-5 (0 = no impact, 5 = severe). " ++
          "Also provide a short reasoning and a confidence score (0-10). " ++
          "Return strictly valid JSON in this format:" ++ nl);
     Lit rating_format] in
  let system_prompt :=
    match dict_find (in_context_learning_samples self) criteria_name with
    | Some examples =>
        if py_truthy examples
        then (system_prompt ++
              [Lit (nl ++ "In-context examples:" ++ nl); Val examples])%list
        else system_prompt
    | None => system_prompt
    end in
  '(final_score, log_final) <- task_execution system_prompt user_prompt_step_3 ;;
  (* the arguments of the logging call *)
  _ <- lift (py_get final_score "rating" PNone) ;;
  _ <- lift (py_get final_score "confidence" PNone) ;;
  let protocol :=
    PDict [("instances", log_instances); ("filter", log_filtered); ("final", log_final)] in
  ret (final_score, list_of_instances, list_of_instances_filtered, protocol).

Definition assessment (criteria_name : string) (score selection filter_output
           protocol : pyval) : pyval :=
  PDict [("criteria", PStr criteria_name);
         ("selection", selection);
         ("filter", filter_output);
         ("score", score);
         ("protocol", protocol)].

(** The loop of [run]: the list [scores]. *)
Definition collect_scores (sample : sample) : M (list pyval) :=
  for_each (fun criteria_name =>
              '(score, selection, filter_output, protocol) <-
                pipeline sample criteria_name ;;
              ret (assessment criteria_name score selection filter_output protocol))
           (map fst (criteria self)).

(** [run(sample)]: the assessments and the quality score. *)
Definition run (sample : sample) : M (list pyval * Q) :=
  scores <- collect_scores sample ;;
  quality_score <- lift (compute_quality_score scores None) ;;
  ret (scores, quality_score).

End WithService.
End EvalPipeline.

(** ** fitting.py *)

(** [a == b] between values that can be dictionary keys: numbers compare
    by value across [bool], [int] and [float]. *)
Definition key_eqb (a b : pyval) : bool :=
  match a, b with
  | PNone, PNone => true
  | PStr s, PStr t => String.eqb s t
  | (PBool _ | PInt _ | PFloat _), (PBool _ | PInt _ | PFloat _) =>
      match py_num a, py_num b with
      | Ok x, Ok y => Qeq_bool x y
      | _, _ => false
      end
  | _, _ => false
  end.

(** Lists and dictionaries cannot be keys. *)
Definition hashable (v : pyval) : bool :=
  match v with
  | PList _ | PDict _ => false
  | _ => true
  end.

(** [l[i]] on a list: a negative index counts from the end. *)
Definition list_getitem {A} (l : list A) (i : Z) : result A :=
  let n := Z.of_nat (List.length l) in
  let j := if i <? 0 then i + n else i in
  if (0 <=? j) && (j <? n) then
    match nth_error l (Z.to_nat j) with
    | Some a => Ok a
    | None => Raise IndexError
    end
  else Raise IndexError.

(** [v[k]] for an arbitrary key, on the values a human-judgment row can
    be: a dictionary (whose keys are strings) or a list. *)
Definition py_subscript (v k : pyval) : result pyval :=
  match v with
  | PDict d =>
      match k with
      | PStr s => dict_getitem d s
      | PList _ | PDict _ => Raise TypeError
      | _ => Raise KeyError
      end
  | PList l =>
      match k with
      | PInt i => list_getitem l i
      | PBool b => list_getitem l (if b then 1 else 0)
      | _ => Raise TypeError
      end
  | _ => Raise TypeError
  end.

Module Fitting.

(** A discrepancy record [{"criteria", "distance", "quality"}]; the
    distance is the pair returned by [likert_score_feedback]. *)
Record feedback : Type :=
  Feedback {
    fb_criteria : pyval;
    fb_distance : string * fstring;
    fb_quality : string
  }.

(** [likert_score_feedback(metric_score, human_score)]. *)
Definition likert_score_feedback (metric_score human_score : pyval)
  : result (string * fstring) :=
  m <~ py_num metric_score ;;
  h <~ py_num human_score ;;
  let difference := Qabs (m - h) in
  if Qeq_bool m 0 && Qle_bool 1 h then
    Ok ("Error Detection Discrepancy",
        [Lit "Metric: 0 vs. Human: "; Val human_score;
         Lit " (Human detects an error)."])
  else if Qle_bool 1 m && Qeq_bool h 0 then
    Ok ("Error Detection Discrepancy",
        [Lit "Metric: "; Val metric_score;
         Lit " vs. Human: 0 (Metric detects an error)."])
  else if Qeq_bool difference 0 then
    Ok ("No Difference",
        [Lit "Scores match exactly. (Human: "; Val human_score;
         Lit "; Metric: "; Val metric_score; Lit ")"])
  else if Qeq_bool difference 1 then
    Ok ("Minor Difference",
        [Lit "Scores differ by 1 point. (Human: "; Val human_score;
         Lit "; Metric: "; Val metric_score; Lit ")"])
  else if Qeq_bool difference 2 then
    Ok ("Moderate Difference",
        [Lit "Scores differ by 2 points. (Human: "; Val human_score;
         Lit "; Metric: "; Val metric_score; Lit ")"])
  else
    Ok ("Major Difference",
        [Lit "Scores differ by >= 3 points. (Human: "; Val human_score;
         Lit "; Metric: "; Val metric_score; Lit ")"]).

(** [grouped[error_type].append(feedback)] on a [defaultdict(list)]. *)
Fixpoint group_append (grouped : list (pyval * list feedback)) (error_type : pyval)
         (fb : feedback) : list (pyval * list feedback) :=
  match grouped with
  | [] => [(error_type, [fb])]
  | (k, fbs) :: rest =>
      if key_eqb k error_type then (k, fbs ++ [fb])%list :: rest
      else (k, fbs) :: group_append rest error_type fb
  end.

(** [group_feedback_by_error_type(feedback_list)]. *)
Fixpoint group_from (grouped : list (pyval * list feedback))
         (feedback_list : list feedback) : result (list (pyval * list feedback)) :=
  match feedback_list with
  | [] => Ok grouped
  | fb :: rest =>
      let error_type := fb_criteria fb in
      if hashable error_type
      then group_from (group_append grouped error_type fb) rest
      else Raise TypeError
  end.

Definition group_feedback_by_error_type (feedback_list : list feedback)
  : result (list (pyval * list feedback)) :=
  group_from [] feedback_list.

Section WithService.

Variable client : nat -> request -> api_outcome.
Variable entropy : nat -> Z.
Variable model_id : string.

(** [reasoning_feedback(model_reasoning, human_reasoning)]. *)
Definition reasoning_feedback (model_reasoning human_reasoning : pyval) : M string :=
  let system_prompt :=
    [Lit ("You are a judge tasked with comparing a candidate reasoning to a human reasoning. " ++
          "You may find differences acceptable unless they are major or inaccurate. " ++
          "Return a chain-of-thought and a single-value quality score (0 to 100).")] in
  let user_prompt :=
    [Lit ("Candidate reasoning:" ++ nl); Val model_reasoning; Lit (nl ++ nl);
     Lit ("Human reasoning:" ++ nl); Val human_reasoning; Lit (nl ++ nl);
     Lit "Please provide your chain-of-thought and a single integer rating from 0 to 100."] in
  let message := two_messages system_prompt user_prompt in
  response_raw <- ModelHandler.call_model client entropy message model_id 2000 ;;
  response <- lift (message_content response_raw) ;;
  ret (strip response).

(** [quality_report(list_of_comparisons)]. *)
Definition quality_report (list_of_comparisons : pyval) : M pyval :=
  let system_prompt :=
    [Lit ("You are a supervisor providing feedback to a junior evaluator on how to improve. " ++
          "You will be given comparisons of metric vs. human evaluations.")] in
  let user_prompt :=
    [Lit ("All comparisons:" ++ nl); Val list_of_comparisons; Lit (nl ++ nl);
     Lit ("Now provide meta-level feedback on how to improve scoring and reasoning. " ++
          "Return valid JSON in the format:" ++ nl ++
          "{" ++ nl ++
          qt "  'score_similarity': '<feedback>'," ++ nl ++
          qt "  'reasoning_quality': '<feedback>'" ++ nl ++
          "}" ++ nl)] in
  let message := two_messages system_prompt user_prompt in
  response_raw <- ModelHandler.call_model client entropy message model_id 2000 ;;
  text <- lift (message_content response_raw) ;;
  let text := strip text in
  match Json.loads text with
  | Some literal => ret literal
  | None => ret (PStr text)
  end.

(** ["human_scores": human_scores[index] if human_scores else None]. *)
Definition human_scores_of (human_scores : option (list pyval)) (index : Z)
  : result pyval :=
  match human_scores with
  | Some ((_ :: _) as rows) => list_getitem rows index
  | _ => Ok PNone
  end.

(** The body of the loop over one sample's assessments: the discrepancy
    record of one criterion. *)
Definition compare_criterion (human_row : pyval) (criteria : pyval) : M feedback :=
  error_type <- lift (py_getitem criteria "criteria") ;;
  score <- lift (py_getitem criteria "score") ;;
  metric_rating <- lift (py_getitem score "rating") ;;
  score <- lift (py_getitem criteria "score") ;;
  metric_reasoning <- lift (py_getitem score "reasoning") ;;
  '(human_rating, human_reasoning) <-
    (if py_truthy human_row then
       row <- lift (py_subscript human_row error_type) ;;
       human_rating <- lift (py_getitem row "impact") ;;
       row <- lift (py_subscript human_row error_type) ;;
       human_reasoning <- lift (py_getitem row "reasoning") ;;
       ret (human_rating, human_reasoning)
     else ret (PInt 0, PStr EmptyString)) ;;
  distance <- lift (likert_score_feedback metric_rating human_rating) ;;
  quality <- reasoning_feedback metric_reasoning human_reasoning ;;
  ret (Feedback error_type distance quality).

(** [feedback_per_criteria] for one sample. *)
Definition compare_sample (human_row : pyval) (model_score_dict : list pyval)
  : M (list feedback) :=
  for_each (compare_criterion human_row) model_score_dict.

(** The body of the loop of [run] over the samples: [overall_quality]
    as it stands at the end of the iteration. *)
Definition run_sample (human_scores : option (list pyval))
           (item : Z * list pyval) : M (list pyval) :=
  let '(index, model_score_dict) := item in
  human_row <- lift (human_scores_of human_scores index) ;;
  feedback_per_criteria <- compare_sample human_row model_score_dict ;;
  grouped_feedback_by_error_type <-
    lift (group_feedback_by_error_type feedback_per_criteria) ;;
  (* iterating a dictionary yields its keys *)
  for_each (fun group => quality_report group)
           (map fst grouped_feedback_by_error_type).

(** [run(scores, human_scores)]: [overall_reports] is created empty and
    never appended to; it is returned twice. *)
Definition run (scores : list (Z * list pyval)) (human_scores : option (list pyval))
  : M (list pyval * list pyval) :=
  let overall_reports : list pyval := [] in
  _ <- for_each (run_sample human_scores) scores ;;
  ret (overall_reports, overall_reports).

End WithService.
End Fitting.

(** ** Loading the criteria and the in-context examples

    A directory is given as the list of its files, in the order
    [os.listdir] yields them, each with its text. *)

Definition directory := list (string * string).

(** [s.endswith(suffix)]. *)
Definition ends_with (suffix s : string) : bool :=
  (String.length suffix <=? String.length s)%nat &&
  String.eqb (String.substring (String.length s - String.length suffix)
                               (String.length suffix) s)
             suffix.

(** [s.split(sep)[0]] for a separator of one character: what precedes its
    first occurrence, or all of [s]. *)
Fixpoint before_first (sep : ascii) (s : string) : string :=
  match s with
  | EmptyString => EmptyString
  | String c s' => if Ascii.eqb c sep then EmptyString else String c (before_first sep s')
  end.

(** [s.replace(old, new)] for a non-empty [old]: the occurrences are
    replaced from left to right, without overlap.  [skip] counts the
    characters of an occurrence still to be passed over. *)
Fixpoint replace_from (old new : string) (s : string) (skip : nat) : string :=
  match s with
  | EmptyString => EmptyString
  | String c s' =>
      match skip with
      | S k => replace_from old new s' k
      | O =>
          if String.prefix old s
          then new ++ replace_from old new s' (String.length old - 1)
          else String c (replace_from old new s' 0)
      end
  end.

Definition str_replace (old new s : string) : string := replace_from old new s 0.

(** [json.load(f)] on the text of a file; [json.JSONDecodeError] is a
    [ValueError]. *)
Definition json_load (text : string) : result pyval :=
  match Json.loads text with
  | Some data => Ok data
  | None => Raise ValueError
  end.

(** [data[0]]: the first element of a list, the first character of a
    string; a dictionary decoded from JSON has no key [0]; the other
    values are not subscriptable. *)
Definition first_item (data : pyval) : result pyval :=
  match data with
  | PList (x :: _) => Ok x
  | PList [] => Raise IndexError
  | PStr (String c _) => Ok (PStr (String c EmptyString))
  | PStr EmptyString => Raise IndexError
  | PDict _ => Raise KeyError
  | _ => Raise TypeError
  end.

Module Loading.

(** The loop of [_load_criteria] of the three pipelines, on the
    dictionary built so far. *)
Fixpoint load_criteria_from (definitions_dict : pydict) (files : directory)
  : result pydict :=
  match files with
  | [] => Ok definitions_dict
  | (file, text) :: rest =>
      if ends_with ".json" file then
        data <~ json_load text ;;
        let filename := before_first "." file in
        definition <~ py_get data "definition" (PStr EmptyString) ;;
        load_criteria_from (dict_set definitions_dict filename definition) rest
      else load_criteria_from definitions_dict rest
  end.

(** [_load_criteria(criteria_path)] of [SimpleBaselinePipeline],
    [BaselinePipeline] and [EvalPipeline]. *)
Definition _load_criteria (criteria_path : directory) : result pydict :=
  load_criteria_from [] criteria_path.

(** [Fitting._load_criteria(criteria_path)]: the names only, in a list. *)
Definition fitting_load_criteria (criteria_path : directory) : list string :=
  map (fun entry => before_first "." (fst entry))
      (filter (fun entry => ends_with ".json" (fst entry)) criteria_path).

(** The loop of [_load_learning_samples]. *)
Fixpoint load_learning_samples_from (learning_samples : pydict) (files : directory)
  : result pydict :=
  match files with
  | [] => Ok learning_samples
  | (file, text) :: rest =>
      if ends_with ".json" file then
        data <~ json_load text ;;
        let filename := before_first "_" file in
        first <~ first_item data ;;
        likert_score <~ py_get first "likert_score" PNone ;;
        first <~ first_item data ;;
        reasoning <~ py_get first "reasoning" PNone ;;
        load_learning_samples_from
          (dict_set learning_samples filename
                    (PDict [("likert_score", likert_score); ("reasoning", reasoning)]))
          rest
      else load_learning_samples_from learning_samples rest
  end.

(** [_load_learning_samples(learning_samples_path)] of the two baseline
    pipelines; [None] stands for a path that is empty or not a directory. *)
Definition _load_learning_samples (learning_samples_path : option directory)
  : result pydict :=
  match learning_samples_path with
  | None => Ok []
  | Some files => load_learning_samples_from [] files
  end.

(** The loop of [_load_learning_samples_from_csv] over the items of the
    decoded file. *)
Fixpoint learning_samples_of_items (learning_samples : pydict)
         (items : list (string * pyval)) : result pydict :=
  match items with
  | [] => Ok learning_samples
  | (error_type, feedback_data) :: rest =>
      let cleaned := str_replace "_scores.csv" EmptyString error_type in
      suggestion <~ py_get feedback_data "suggestions" (PStr "No suggestion available") ;;
      learning_samples_of_items (dict_set learning_samples cleaned suggestion) rest
  end.

(** [EvalPipeline._load_learning_samples_from_csv(csv_file_path)] on the
    text of the file; [None] stands for a path that is empty or does not
    exist.  Only the decoding error is caught. *)
Definition _load_learning_samples_from_csv (csv_file : option string) : result pydict :=
  match csv_file with
  | None => Ok []
  | Some file_content =>
      match Json.loads file_content with
      | None => Ok []
      | Some data =>
          items <~ py_items data ;;
          learning_samples_of_items [] items
      end
  end.

End Loading.

(** * The vocabulary of the statements *)

(** ** Services *)

(** A service that answers every request with the same text. *)
Definition constant_service (text : string) : nat -> request -> api_outcome :=
  fun _ _ => Completed (Response text).

(** A service that fails every request with the same message. *)
Definition failing_service (msg : string) : nat -> request -> api_outcome :=
  fun _ _ => Failed msg.

(** A service whose first request fails and whose later requests succeed. *)
Definition first_request_fails (msg text : string) : nat -> request -> api_outcome :=
  fun n _ =>
    match n with
    | O => Failed msg
    | S _ => Completed (Response text)
    end.

Definition no_entropy : nat -> Z := fun _ => 0.

(** The service is in a state where the model handler obtains a response
    for every conversation (at the first attempt or after retries). *)
Definition answering (client : nat -> request -> api_outcome)
           (entropy : nat -> Z) (model : string) (max_tokens : Z) : Prop :=
  forall messages w,
    exists r w',
      ModelHandler.call_model client entropy messages model max_tokens w
      = (Ok (Some r), w').

(** ** The retry loop *)

(** The error of a request carries the rate-limit signal. *)
Definition rate_limited (o : api_outcome) : Prop :=
  exists message, o = Failed message /\ contains "429" message = true.

(** The jitter added to the back-off, from the [d]-th random number. *)
Definition jitter (entropy : nat -> Z) (d : nat) : Q := (inject_Z (entropy d mod 1001) / 1000)%Q.

(** The back-off sleep after the failed attempt [attempt]. *)
Definition backoff (entropy : nat -> Z) (attempt : Z) (d : nat) : Q :=
  (inject_Z (2 ^ (attempt + 1)) + jitter entropy d)%Q.

(** What [k] rate-limited attempts, numbered from [s], leave in the log
    when the random numbers are drawn from the [d]-th on. *)
Definition limited_events (entropy : nat -> Z) (req : request) (base_delay : Q)
           (s k d : nat) : list event :=
  flat_map (fun i => [Called req;
                      Slept (backoff entropy (Z.of_nat (s + i)) (d + i));
                      Slept base_delay])
           (seq 0 k).

(** ** Assessments *)

(** The name an assessment carries. *)
Definition criterion_of (assessment : pyval) : result pyval :=
  py_getitem assessment "criteria".

(** The score an assessment carries. *)
Definition score_of (assessment : pyval) : result pyval :=
  py_getitem assessment "score".



(** ** Aggregation *)



(** An entry of the documented shape. *)
Definition quality_entry (name : string) (certainty rating : pyval) : pyval :=
  PDict [("criteria", PStr name); ("certainty", certainty); ("rating", rating)].

(** The weights the documentation announces, under the names the lookup
    really uses. *)
Definition announced_importance_weights : list (string * Q) :=
  [("OMISSION", 1.1%Q); ("HALLUCINATION", 1.1%Q); ("IRRELEVANCE", 1.1%Q);
   ("REPETITION", 0.9%Q); ("INCOHERENCE", 0.9%Q); ("LANGUAGE", 0.9%Q)].

(** ** Comparison with human judgments *)

(** The category alone. *)
Definition category (r : result (string * fstring)) : result string :=
  match r with
  | Ok (c, _) => Ok c
  | Raise e => Raise e
  end.



(** ** Observing the log *)

(** The values interpolated into the prompts of a request. *)
Definition interpolated (r : request) : list pyval :=
  flat_map (fun m => flat_map (fun f => match f with
                                        | Val v => [v]
                                        | Lit _ => []
                                        end) (content m))
           (req_messages r).

(** The values interpolated into the requests of a log, in order. *)
Definition requests_values (events : list event) : list (list pyval) :=
  flat_map (fun e => match e with
                     | Called r => [interpolated r]
                     | Slept _ => []
                     end) events.

(** ** Concrete inputs *)

Definition demo_criteria : pydict :=
  [("omission", PStr "Relevant content of the meeting is missing.");
   ("hallucination", PStr "The summary states what was never said.")].

Definition demo_pipeline : pipeline :=
  Pipeline demo_criteria [] "gpt-4o" true false.

Definition demo_sample : sample :=
  Sample (PStr "The team agreed on the budget.")
         (PStr "A: Shall we approve the budget? B: Yes.").

Definition good_reply : string :=
  qt "{'reasoning': 'Nothing is missing.', 'confidence': 9, 'rating': 0}".

Definition fenced (payload : string) : string :=
  "```json" ++ nl ++ payload ++ nl ++ "```".

Definition demo_assessments : list pyval :=
  [BaselinePipeline.assessment "omission"
     (PDict [("reasoning", PStr "The decision on the budget is missing.");
             ("confidence", PInt 8); ("rating", PInt 2)]);
   BaselinePipeline.assessment "hallucination"
     (PDict [("reasoning", PStr "Nothing was invented.");
             ("confidence", PInt 9); ("rating", PInt 0)])].

(** The scores of one sample, under its index. *)
Definition demo_scores : list (Z * list pyval) := [(0, demo_assessments)].

(** ** Further vocabulary *)

(** The service completes every request (at the first attempt). *)
Definition always_completes (client : nat -> request -> api_outcome) : Prop :=
  forall n r, exists response, client n r = Completed response.

(** The seconds slept according to a log. *)
Fixpoint total_slept (events : list event) : Q :=
  match events with
  | [] => 0%Q
  | Slept d :: rest => (d + total_slept rest)%Q
  | Called _ :: rest => total_slept rest
  end.

(** The requests of a log, in order. *)
Fixpoint requests_of (events : list event) : list request :=
  match events with
  | [] => []
  | Called r :: rest => r :: requests_of rest
  | Slept _ :: rest => requests_of rest
  end.

(** The first and the last character of a string. *)
Definition first_char (s : string) : option ascii :=
  match s with
  | EmptyString => None
  | String c _ => Some c
  end.

Fixpoint last_char (s : string) : option ascii :=
  match s with
  | EmptyString => None
  | String c EmptyString => Some c
  | String _ s' => last_char s'
  end.

(** A character that none of the three [strip] calls removes: it is
    neither in the set of [strip("```json")] nor white space. *)
Definition fence_safe (c : ascii) : bool :=
  negb (mem_char c "```json") && negb (is_space c).

(** Every character of [s] is accepted by [p]. *)
Fixpoint all_chars (p : ascii -> bool) (s : string) : bool :=
  match s with
  | EmptyString => true
  | String c s' => p c && all_chars p s'
  end.

(** An entry of the documented shape, from a name, a certainty and a
    rating that are floats. *)
Definition entry_of (t : string * Q * Q) : pyval :=
  let '(name, certainty, rating) := t in
  quality_entry name (PFloat certainty) (PFloat rating).


(** The weight [certainty * importance] of an entry. *)
Definition weight_of (importance_weights : list (string * Q)) (t : string * Q * Q) : Q :=
  let '(name, certainty, _) := t in
  (certainty * EvalPipeline.weights_get importance_weights (upper name) 1.0)%Q.

(** The table [compute_quality_score] works with. *)
Definition table_of (importance_weights : option (list (string * Q)))
  : list (string * Q) :=
  match importance_weights with
  | Some ws => ws
  | None => EvalPipeline.default_importance_weights
  end.

(** The sum of the weights of the entries, added to [d] from the left. *)
Definition total_weight (ws : list (string * Q)) (d : Q) (ts : list (string * Q * Q)) : Q :=
  fold_left (fun acc t => (acc + weight_of ws t)%Q) ts d.

(** The sum of the weighted ratings of the entries, added to [n]. *)
Definition total_rating (ws : list (string * Q)) (n : Q) (ts : list (string * Q * Q)) : Q :=
  fold_left (fun acc t => (acc + snd t * weight_of ws t)%Q) ts n.


(** Two groups have keys that are not equal. *)
Definition distinct_keys (x y : pyval * list Fitting.feedback) : Prop :=
  key_eqb (fst x) (fst y) = false.

(** A group is not empty and holds records of its key only. *)
Definition well_grouped (g : pyval * list Fitting.feedback) : Prop :=
  snd g <> [] /\
  Forall (fun fb => key_eqb (fst g) (Fitting.fb_criteria fb) = true) (snd g).

(** The service answers a request the same way whenever it is sent. *)
Definition stateless (client : nat -> request -> api_outcome) : Prop :=
  forall n m r, client n r = client m r.

(** The result of a computation does not depend on the world it starts
    in (the counters and the log). *)
Definition world_independent {A} (m : M A) : Prop :=
  forall w1 w2, fst (m w1) = fst (m w2).

(** * Properties *)

(** ** The retry loop of the model handler *)

Module RetryFacts.
Section WithService.

Variable client : nat -> request -> api_outcome.
Variable entropy : nat -> Z.
Variables (messages : list message) (model : string) (max_tokens : Z).
Variable base_delay : Q.
Hypothesis base_delay_nonneg : (0 <= base_delay)%Q.

Local Abbreviation req := (Request model messages max_tokens).

Lemma jitter_bounds d : (0 <= jitter entropy d)%Q /\ (jitter entropy d <= 1)%Q.
Proof.
  unfold jitter.
  assert (H : 0 <= entropy d mod 1001 < 1001) by (apply Z.mod_pos_bound; lia).
  split.
  - apply Qle_shift_div_l; [reflexivity|].
    rewrite Qmult_0_l. change 0%Q with (inject_Z 0).
    rewrite <- Zle_Qle. lia.
  - apply Qle_shift_div_r; [reflexivity|].
    rewrite Qmult_1_l. change 1000%Q with (inject_Z 1000).
    rewrite <- Zle_Qle. lia.
Qed.

Lemma backoff_nonneg attempt d : 0 <= attempt -> Qle_bool 0 (backoff entropy attempt d) = true.
Proof.
  intros Ha. apply Qle_bool_iff. unfold backoff.
  destruct (jitter_bounds d) as [Hj _].
  assert (Hp : (0 <= inject_Z (2 ^ (attempt + 1)))%Q).
  { change 0%Q with (inject_Z 0). rewrite <- Zle_Qle.
    apply Z.pow_nonneg. lia. }
  rewrite <- (Qplus_0_r 0). apply Qplus_le_compat; assumption.
Qed.

Lemma base_delay_ok : Qle_bool 0 base_delay = true.
Proof. apply Qle_bool_iff. exact base_delay_nonneg. Qed.

Local Abbreviation body := (ModelHandler.attempt_body client entropy messages model max_tokens base_delay).
Local Abbreviation loop := (ModelHandler.for_attempts client entropy messages model max_tokens base_delay).

(** A rate-limited attempt: the request, the back-off, the fixed delay,
    and the loop goes on. *)
Lemma body_rate_limited attempt w :
  0 <= attempt ->
  rate_limited (client (api_calls w) req) ->
  body attempt w =
    (Ok Next,
     World (S (api_calls w)) (S (draws w))
           (log w ++ [Called req; Slept (backoff entropy attempt (draws w)); Slept base_delay])).
Proof.
  intros Ha (message & He & H429).
  unfold ModelHandler.attempt_body, try_finally, try_except, bind,
    ModelHandler._call_gpt, randint, ret.
  rewrite He. cbn [exn_str]. rewrite H429.
  unfold sleep at 1. cbn [draws api_calls log].
  change (0 + entropy (draws w) mod (1000 - 0 + 1)) with (entropy (draws w) mod 1001).
  fold (jitter entropy (draws w)). fold (backoff entropy attempt (draws w)).
  rewrite (backoff_nonneg attempt (draws w) Ha).
  unfold sleep. cbn [draws api_calls log]. rewrite base_delay_ok.
  rewrite <- !app_assoc. reflexivity.
Qed.

(** Any other error: the request, the fixed delay, and the loop stops. *)
Lemma body_other_error attempt w message :
  client (api_calls w) req = Failed message ->
  contains "429" message = false ->
  body attempt w =
    (Ok Break,
     World (S (api_calls w)) (draws w) (log w ++ [Called req; Slept base_delay])).
Proof.
  intros He H429.
  unfold ModelHandler.attempt_body, try_finally, try_except, bind,
    ModelHandler._call_gpt, ret.
  rewrite He. cbn [exn_str]. rewrite H429.
  unfold sleep. cbn [draws api_calls log]. rewrite base_delay_ok.
  rewrite <- !app_assoc. reflexivity.
Qed.

(** A success: the request, the fixed delay, and the response is returned. *)
Lemma body_success attempt w r :
  client (api_calls w) req = Completed r ->
  body attempt w =
    (Ok (Return (Some r)),
     World (S (api_calls w)) (draws w) (log w ++ [Called req; Slept base_delay])).
Proof.
  intros He.
  unfold ModelHandler.attempt_body, try_finally, try_except, bind,
    ModelHandler._call_gpt, ret.
  rewrite He.
  unfold sleep. cbn [draws api_calls log]. rewrite base_delay_ok.
  rewrite <- !app_assoc. reflexivity.
Qed.

Lemma limited_events_S s k d :
  limited_events entropy req base_delay s (S k) d =
    ([Called req; Slept (backoff entropy (Z.of_nat s) d); Slept base_delay]
     ++ limited_events entropy req base_delay (S s) k (S d))%list.
Proof.
  unfold limited_events. rewrite <- cons_seq. cbn [flat_map].
  rewrite !Nat.add_0_r. f_equal.
  rewrite <- seq_shift, flat_map_concat_map, map_map, <- flat_map_concat_map.
  apply flat_map_ext. intros i.
  now rewrite !Nat.add_succ_r.
Qed.

(** A run of [k] rate-limited attempts is passed over: the loop goes on
    with the remaining attempts in the world they leave. *)
Lemma loop_skips_rate_limited k :
  forall s rest w,
    (forall i, (i < k)%nat -> rate_limited (client (api_calls w + i) req)) ->
    loop (map Z.of_nat (seq s k) ++ rest)%list w =
      loop rest (World (api_calls w + k) (draws w + k)
                       (log w ++ limited_events entropy req base_delay s k (draws w))).
Proof.
  induction k as [|k IH]; intros s rest w Hlim.
  - cbn [seq map app]. unfold limited_events. cbn [seq flat_map].
    rewrite !Nat.add_0_r, app_nil_r. now destruct w.
  - cbn [seq map app ModelHandler.for_attempts]. unfold bind at 1.
    rewrite body_rate_limited.
    + rewrite IH.
      * cbn [api_calls draws log]. rewrite limited_events_S.
        rewrite <- !app_assoc. cbn [app].
        now rewrite !Nat.add_succ_r.
      * intros i Hi. cbn [api_calls].
        replace (S (api_calls w) + i)%nat with (api_calls w + S i)%nat by lia.
        apply Hlim. lia.
    + lia.
    + rewrite <- (Nat.add_0_r (api_calls w)). apply Hlim. lia.
Qed.

Lemma seq_split_at k n :
  (k < n)%nat -> seq 0 n = (seq 0 k ++ k :: seq (S k) (n - S k))%list.
Proof.
  intros H. replace n with (k + S (n - S k))%nat at 1 by lia.
  rewrite seq_app. reflexivity.
Qed.

(** Whatever the service answers, the loop ends without an exception and
    sends at most one request per attempt. *)
Lemma loop_total attempts :
  forall w,
    Forall (fun a => 0 <= a) attempts ->
    exists o w',
      loop attempts w = (Ok o, w') /\
      (api_calls w' <= api_calls w + List.length attempts)%nat.
Proof.
  induction attempts as [|a rest IH]; intros w Hpos.
  - exists None, w. cbn. split; [reflexivity | lia].
  - inversion Hpos as [|? ? Ha Hrest]; subst.
    cbn [ModelHandler.for_attempts]. unfold bind at 1.
    destruct (client (api_calls w) req) as [r|message] eqn:Hc.
    + rewrite (body_success a w r Hc).
      eexists _, _. split; [reflexivity|]. cbn. lia.
    + destruct (contains "429" message) eqn:H429.
      * rewrite body_rate_limited; [| exact Ha | now exists message].
        destruct (IH (World (S (api_calls w)) (S (draws w))
                            (log w ++ [Called req; Slept (backoff entropy a (draws w));
                                       Slept base_delay])) Hrest)
          as (o & w' & Hloop & Hcalls).
        exists o, w'. split; [exact Hloop|]. cbn in *. lia.
      * rewrite (body_other_error a w message Hc H429).
        eexists _, _. split; [reflexivity|]. cbn. lia.
Qed.

Lemma range_nonneg n : Forall (fun a => 0 <= a) (range n).
Proof. unfold range. apply Forall_forall. intros a Ha. apply in_map_iff in Ha.
  destruct Ha as (i & <- & _). lia.
Qed.

Lemma range_length n : List.length (range n) = Z.to_nat n.
Proof. unfold range. now rewrite length_map, length_seq. Qed.

(** C4. [call_model_with_retry] goes on to a next attempt only after an
    error whose message contains "429", and then first sleeps
    [2^(attempt+1)] seconds plus a jitter entropy between 0 and 1 second; any other
    error ends the loop at once; the fixed [base_delay] sleep closes every
    attempt, successful or not; it never raises, sends at most
    [max_attempts] requests, and returns [None] unless an attempt succeeds.
    The three cases give the exact result and log of requests and sleeps. *)
Theorem call_model_with_retry_policy (max_attempts : Z) (w : world) :
  let n := Z.to_nat max_attempts in
  let run :=
    ModelHandler.call_model_with_retry client entropy messages model max_tokens
                                       max_attempts base_delay w in
  let failed i := rate_limited (client (api_calls w + i) req) in
  (forall d, (0 <= jitter entropy d)%Q /\ (jitter entropy d <= 1)%Q) /\
  (exists o, fst run = Ok o) /\
  (api_calls (snd run) <= api_calls w + n)%nat /\
  ((forall i, (i < n)%nat -> failed i) ->
   run = (Ok None,
          World (api_calls w + n) (draws w + n)
                (log w ++ limited_events entropy req base_delay 0 n (draws w)))) /\
  (forall k message,
      (k < n)%nat -> (forall i, (i < k)%nat -> failed i) ->
      client (api_calls w + k) req = Failed message ->
      contains "429" message = false ->
      run = (Ok None,
             World (S (api_calls w + k)) (draws w + k)
                   (log w ++ limited_events entropy req base_delay 0 k (draws w)
                          ++ [Called req; Slept base_delay]))) /\
  (forall k r,
      (k < n)%nat -> (forall i, (i < k)%nat -> failed i) ->
      client (api_calls w + k) req = Completed r ->
      run = (Ok (Some r),
             World (S (api_calls w + k)) (draws w + k)
                   (log w ++ limited_events entropy req base_delay 0 k (draws w)
                          ++ [Called req; Slept base_delay]))).
Proof.
  intros n run failed. subst run failed.
  unfold ModelHandler.call_model_with_retry.
  split; [exact jitter_bounds|].
  destruct (loop_total (range max_attempts) w (range_nonneg max_attempts))
    as (o & w' & Hloop & Hcalls).
  rewrite range_length in Hcalls. fold n in Hcalls.
  split; [exists o; now rewrite Hloop|].
  split; [now rewrite Hloop|].
  unfold range. fold n. clear o w' Hloop Hcalls.
  split; [|split].
  - intros Hall.
    rewrite <- (app_nil_r (map Z.of_nat (seq 0 n))).
    rewrite (loop_skips_rate_limited n 0 [] w Hall). reflexivity.
  - intros k message Hk Hpre Hc H429.
    rewrite (seq_split_at k n Hk), map_app. cbn [map].
    rewrite (loop_skips_rate_limited k 0 _ w Hpre).
    cbn [ModelHandler.for_attempts]. unfold bind at 1.
    rewrite (body_other_error _ _ message); [| exact Hc | exact H429].
    cbn [api_calls draws log]. unfold ret. now rewrite <- app_assoc.
  - intros k r Hk Hpre Hc.
    rewrite (seq_split_at k n Hk), map_app. cbn [map].
    rewrite (loop_skips_rate_limited k 0 _ w Hpre).
    cbn [ModelHandler.for_attempts]. unfold bind at 1.
    rewrite (body_success _ _ r); [| exact Hc].
    cbn [api_calls draws log]. unfold ret. now rewrite <- app_assoc.
Qed.

End WithService.
End RetryFacts.

(** ** Completeness of the assessment lists *)

Lemma constant_service_answering text entropy model max_tokens :
  answering (constant_service text) entropy model max_tokens.
Proof.
  intros messages w. eexists _, _. reflexivity.
Qed.

Module CompletenessFacts.
Section WithService.

Variable client : nat -> request -> api_outcome.
Variable entropy : nat -> Z.
Variable self : pipeline.
Hypothesis service_answers : answering client entropy (model_id self) 4000.






End WithService.
End CompletenessFacts.

(** *** Concrete runs *)



(** ** The quality score *)

Module QualityFacts.







End QualityFacts.

(** *** The aggregation on concrete inputs *)



(** No upper-cased name starts with the first letter of a key of the
    default table. *)
Lemma upper_char_not_lower (a : ascii) :
  Ascii.eqb "o" (upper_char a) = false /\
  Ascii.eqb "h" (upper_char a) = false /\
  Ascii.eqb "i" (upper_char a) = false /\
  Ascii.eqb "r" (upper_char a) = false /\
  Ascii.eqb "l" (upper_char a) = false.
Proof.
  destruct a as [[] [] [] [] [] [] [] []]; vm_compute; repeat split; reflexivity.
Qed.

(** With the default table the importance of every criterion is 1.0: the
    name is upper-cased before it is looked up among lower-case keys. *)
Lemma default_importance_is_one (name : string) :
  EvalPipeline.weights_get EvalPipeline.default_importance_weights (upper name) 1.0%Q
  = 1.0%Q.
Proof.
  destruct name as [|a rest].
  - reflexivity.
  - destruct (upper_char_not_lower a) as (Ho & Hh & Hi & Hr & Hl).
    cbn [upper EvalPipeline.weights_get EvalPipeline.default_importance_weights
         String.eqb].
    now rewrite Ho, Hh, Hi, Hr, Hl.
Qed.

(** C7 fails on the code.  For an omission rated 5 and a coreference
    entry rated 0, both with certainty 1: the default call weights both
    entries by 1.0 and returns 11/2, where the announced weights (1.1 for
    omission) give 37/7. *)
Theorem default_weights_are_not_applied :
  let scores := [quality_entry "omission" (PFloat 1) (PInt 5);
                 quality_entry "coreference" (PFloat 1) (PInt 0)] in
  (exists quality,
      EvalPipeline.compute_quality_score scores None = Ok quality /\
      quality == 11 # 2) /\
  (exists quality,
      EvalPipeline.compute_quality_score scores (Some announced_importance_weights)
      = Ok quality /\
      quality == 37 # 7) /\
  EvalPipeline.weights_get EvalPipeline.default_importance_weights
                           (upper "omission") 1.0%Q = 1.0%Q.
Proof.
  cbv zeta. split; [|split].
  - eexists. split; reflexivity.
  - eexists. split; reflexivity.
  - reflexivity.
Qed.

(** *** The three-step run *)

(** The assessments of the three-step pipeline have no ['certainty'] key:
    aggregating a list that starts with one raises [KeyError]. *)
Lemma aggregation_of_assessments_raises name score selection filter_output protocol rest :
  EvalPipeline.compute_quality_score
    (EvalPipeline.assessment name score selection filter_output protocol :: rest) None
  = Raise KeyError.
Proof. reflexivity. Qed.

(** C2 fails on the code.  Every reply is a valid rating; the loop of
    [run] builds the two assessments, then the aggregation raises
    [KeyError] and [run] returns neither the list nor a score. *)
Theorem three_step_run_raises_KeyError :
  (exists scores,
      fst (EvalPipeline.collect_scores (constant_service good_reply) no_entropy
             demo_pipeline demo_sample world0) = Ok scores /\
      map criterion_of scores = [Ok (PStr "omission"); Ok (PStr "hallucination")] /\
      EvalPipeline.compute_quality_score scores None = Raise KeyError) /\
  fst (EvalPipeline.run (constant_service good_reply) no_entropy
         demo_pipeline demo_sample world0) = Raise KeyError.
Proof.
  split; [eexists; split; [reflexivity | split; reflexivity] | reflexivity].
Qed.

(** The same holds for every service, sample and non-empty criterion set:
    the three-step [run] never returns normally. *)
Lemma three_step_run_never_returns client entropy self data w :
  criteria self <> [] ->
  forall out, fst (EvalPipeline.run client entropy self data w) <> Ok out.
Proof.
  intros Hne out. unfold EvalPipeline.run, EvalPipeline.collect_scores.
  destruct (criteria self) as [|[name definition] rest]; [contradiction|].
  cbn [map fst for_each]. unfold bind at 1. unfold bind at 1. unfold bind at 1.
  destruct (EvalPipeline.pipeline client entropy self data name w)
    as [[[[[score selection] filter_output] protocol]|e] w1]; [|cbn; discriminate].
  unfold ret at 1. unfold bind at 1.
  destruct (for_each _ (map fst rest) w1) as [[bs|e] w2]; [|cbn; discriminate].
  unfold ret at 1. unfold bind at 1, lift.
  rewrite aggregation_of_assessments_raises. cbn. discriminate.
Qed.

(** *** Failed calls and malformed replies *)

(** C3 fails on the code.  When the handler returns [None] the pipelines
    read an attribute of it: [AttributeError] leaves [run] in each of the
    three strategies, after a non-retryable error as well as after six
    rate-limited attempts; one failed call for the first criterion ends
    the run although the service would answer for the second (one request
    was sent in all).  In the three-step pipeline a reply that is not JSON
    is kept as text, on which [.get] then raises [AttributeError]. *)
Theorem failed_call_aborts_run :
  fst (BaselinePipeline.run (failing_service "Error code: 500") no_entropy
         demo_pipeline demo_sample world0) = Raise AttributeError /\
  fst (SimpleBaselinePipeline.run (failing_service "Error code: 500") no_entropy
         demo_pipeline demo_sample world0) = Raise AttributeError /\
  fst (EvalPipeline.run (failing_service "Error code: 500") no_entropy
         demo_pipeline demo_sample world0) = Raise AttributeError /\
  (let r := BaselinePipeline.run (failing_service "Error code: 429") no_entropy
              demo_pipeline demo_sample world0 in
   fst r = Raise AttributeError /\ api_calls (snd r) = 6%nat) /\
  (let r := BaselinePipeline.run (first_request_fails "Error code: 500" good_reply)
              no_entropy demo_pipeline demo_sample world0 in
   fst r = Raise AttributeError /\ api_calls (snd r) = 1%nat) /\
  fst (EvalPipeline.collect_scores (constant_service "The summary is fine.")
         no_entropy demo_pipeline demo_sample world0) = Raise AttributeError.
Proof. cbv zeta. repeat split; vm_compute; reflexivity. Qed.

(** *** Code fences *)

(** C5 fails on the code for the payload [null].  [strip("```json")]
    removes leading and trailing characters of the set [`], [j], [s], [o],
    [n]: the bare payload loses its first letter and is no longer JSON, so
    the call site falls back to the text "ull", while the fenced payload
    decodes to [None]. *)
Theorem bare_null_is_not_decoded :
  Json.loads "null" = Some PNone /\
  strip_code_fence (strip "null") = "ull" /\
  Json.loads (strip_code_fence (strip "null")) = None /\
  Json.loads (strip_code_fence (strip (fenced "null"))) = Some PNone /\
  fst (EvalPipeline.task_execution (constant_service "null") no_entropy
         demo_pipeline [] [] world0) = Ok (PStr "ull", PStr "ull") /\
  fst (EvalPipeline.task_execution (constant_service (fenced "null")) no_entropy
         demo_pipeline [] [] world0) = Ok (PNone, PNone) /\
  fst (Panel.call_gpt (constant_service "null") no_entropy
         (Panel.init "gpt-4o" false 3) [] [] true world0) = Ok (PStr "ull") /\
  fst (Panel.call_gpt (constant_service (fenced "null")) no_entropy
         (Panel.init "gpt-4o" false 3) [] [] true world0) = Ok PNone.
Proof. repeat split; vm_compute; reflexivity. Qed.

(** ** Fitting *)

Module FittingFacts.

Lemma Qeq_bool_inject (a b : Z) : Qeq_bool (inject_Z a) (inject_Z b) = (a =? b).
Proof. unfold Qeq_bool, inject_Z. cbn. now rewrite !Z.mul_1_r. Qed.

Lemma Qle_bool_inject (a b : Z) : Qle_bool (inject_Z a) (inject_Z b) = (a <=? b).
Proof. unfold Qle_bool, inject_Z. cbn. now rewrite !Z.mul_1_r. Qed.

Lemma Qabs_diff_inject (m h k : Z) :
  Qeq_bool (Qabs (inject_Z m - inject_Z h)) (inject_Z k) = (Z.abs (m - h) =? k).
Proof.
  unfold Qeq_bool, Qabs, Qminus, Qplus, Qopp, inject_Z. cbn.
  rewrite !Z.mul_1_r. f_equal.
Qed.

(** The category of the distance between two integer ratings, decided by
    integer tests. *)
Lemma likert_on_integers (m h : Z) :
  exists detail,
    Fitting.likert_score_feedback (PInt m) (PInt h) =
    Ok (if (m =? 0) && (1 <=? h) then "Error Detection Discrepancy"
        else if (1 <=? m) && (h =? 0) then "Error Detection Discrepancy"
        else if Z.abs (m - h) =? 0 then "No Difference"
        else if Z.abs (m - h) =? 1 then "Minor Difference"
        else if Z.abs (m - h) =? 2 then "Moderate Difference"
        else "Major Difference",
        detail).
Proof.
  unfold Fitting.likert_score_feedback. cbn [py_num rbind].
  change 0%Q with (inject_Z 0). change 1%Q with (inject_Z 1).
  change 2%Q with (inject_Z 2).
  rewrite !Qeq_bool_inject, !Qle_bool_inject, !Qabs_diff_inject.
  destruct ((m =? 0) && (1 <=? h)); [eexists; reflexivity|].
  destruct ((1 <=? m) && (h =? 0)); [eexists; reflexivity|].
  destruct (Z.abs (m - h) =? 0); [eexists; reflexivity|].
  destruct (Z.abs (m - h) =? 1); [eexists; reflexivity|].
  destruct (Z.abs (m - h) =? 2); eexists; reflexivity.
Qed.

(** C8 (amended). On integer ratings [likert_score_feedback] applies the
    rules in order: metric 0 and human at least 1, or metric at least 1 and
    human 0, give "Error Detection Discrepancy"; otherwise the absolute
    difference 0, 1, 2 or at least 3 gives "No Difference", "Minor
    Difference", "Moderate Difference" or "Major Difference".  The concrete
    cases follow from the rules; the ratings 1 and 4 differ by 3 and give
    "Major Difference". *)
Theorem likert_score_feedback_rules :
  (forall m h : Z,
      let c := category (Fitting.likert_score_feedback (PInt m) (PInt h)) in
      (m = 0 /\ 1 <= h -> c = Ok "Error Detection Discrepancy") /\
      (1 <= m /\ h = 0 -> c = Ok "Error Detection Discrepancy") /\
      (~ (m = 0 /\ 1 <= h) -> ~ (1 <= m /\ h = 0) ->
       (Z.abs (m - h) = 0 -> c = Ok "No Difference") /\
       (Z.abs (m - h) = 1 -> c = Ok "Minor Difference") /\
       (Z.abs (m - h) = 2 -> c = Ok "Moderate Difference") /\
       (3 <= Z.abs (m - h) -> c = Ok "Major Difference"))) /\
  category (Fitting.likert_score_feedback (PInt 0) (PInt 3))
  = Ok "Error Detection Discrepancy" /\
  category (Fitting.likert_score_feedback (PInt 2) (PInt 0))
  = Ok "Error Detection Discrepancy" /\
  category (Fitting.likert_score_feedback (PInt 3) (PInt 3)) = Ok "No Difference" /\
  category (Fitting.likert_score_feedback (PInt 2) (PInt 3)) = Ok "Minor Difference" /\
  category (Fitting.likert_score_feedback (PInt 1) (PInt 4)) = Ok "Major Difference" /\
  category (Fitting.likert_score_feedback (PInt 1) (PInt 3)) = Ok "Moderate Difference" /\
  category (Fitting.likert_score_feedback (PInt 0) (PInt 5))
  = Ok "Error Detection Discrepancy".
Proof.
  split; [|repeat split; reflexivity].
  intros m h. cbv zeta.
  destruct (likert_on_integers m h) as (detail & ->). cbn [category].
  destruct (Z.eqb_spec m 0) as [Hm|Hm]; destruct (Z.leb_spec 1 h) as [Hh|Hh];
    destruct (Z.leb_spec 1 m) as [Hm1|Hm1]; destruct (Z.eqb_spec h 0) as [Hh0|Hh0];
    cbn [andb]; try lia;
    repeat split; intros; try reflexivity; try lia;
    destruct (Z.eqb_spec (Z.abs (m - h)) 0); try lia; try reflexivity;
    destruct (Z.eqb_spec (Z.abs (m - h)) 1); try lia; try reflexivity;
    destruct (Z.eqb_spec (Z.abs (m - h)) 2); try lia; try reflexivity.
Qed.

(** C8, as stated, fails on its last concrete case: for the ratings 1 and
    4 the category is not "Moderate Difference". *)
Lemma one_and_four_are_not_moderate :
  category (Fitting.likert_score_feedback (PInt 1) (PInt 4))
  <> Ok "Moderate Difference".
Proof. vm_compute. discriminate. Qed.

Lemma likert_score_feedback_rules_witness :
  category (Fitting.likert_score_feedback (PInt 0) (PInt 3))
  = Ok "Error Detection Discrepancy" /\
  category (Fitting.likert_score_feedback (PInt 5) (PInt 2))
  = Ok "Major Difference".
Proof.
  destruct likert_score_feedback_rules as [Hrules _].
  split.
  - destruct (Hrules 0 3) as (Hunder & _). apply Hunder. split; [reflexivity | lia].
  - destruct (Hrules 5 2) as (_ & _ & Hdiff).
    destruct Hdiff as (_ & _ & _ & Hmajor).
    + intros [H _]. discriminate H.
    + intros [_ H]. discriminate H.
    + apply Hmajor. cbn. lia.
Defined.

Lemma Qle_bool_false (a b : Q) : (b < a)%Q -> Qle_bool a b = false.
Proof.
  intros H. destruct (Qle_bool a b) eqn:E; [|reflexivity].
  apply Qle_bool_iff in E. exfalso. apply (Qlt_not_le _ _ H E).
Qed.


Section WithService.

Variable client : nat -> request -> api_outcome.
Variable entropy : nat -> Z.
Variable model_id : string.
Hypothesis service_answers : answering client entropy model_id 2000.




(** Whatever it is given, [run] returns the pair of empty lists when it
    returns. *)
Lemma run_returns_nothing scores human_scores w reports :
  fst (Fitting.run client entropy model_id scores human_scores w) = Ok reports ->
  reports = ([], []).
Proof.
  unfold Fitting.run, bind.
  destruct (for_each _ scores w) as [[x|e] w']; cbn; congruence.
Qed.

End WithService.

End FittingFacts.

(** *** Concrete comparisons *)


(** C9 fails on the code.  One sample with two criteria is compared
    without human scores, the service answering every request.  Four
    requests are sent: the two reasoning comparisons, then one quality
    report per group, whose input is the NAME of the group, not its
    discrepancy records; and [run] returns two empty lists, none of the
    reports. *)
Theorem fitting_run_returns_no_report :
  let r := Fitting.run (constant_service (qt "{'score_similarity': 'close', 'reasoning_quality': 'good'}"))
                       no_entropy "gpt-4o" demo_scores None world0 in
  fst r = Ok ([], []) /\
  requests_values (log (snd r)) =
    [[PStr "The decision on the budget is missing."; PStr EmptyString];
     [PStr "Nothing was invented."; PStr EmptyString];
     [PStr "omission"];
     [PStr "hallucination"]].
Proof. cbv zeta. split; vm_compute; reflexivity. Qed.

(** *** A rate-limited service *)

Lemma call_model_with_retry_policy_witness :
  (0 <= 3)%Q /\
  let r := ModelHandler.call_model_with_retry (failing_service "Error code: 429")
             no_entropy [] "gpt-4o" 1000 2 3 world0 in
  fst r = Ok None /\ api_calls (snd r) = 2%nat /\
  log (snd r) =
    [Called (Request "gpt-4o" [] 1000); Slept (inject_Z 2 + 0 / 1000); Slept 3;
     Called (Request "gpt-4o" [] 1000); Slept (inject_Z 4 + 0 / 1000); Slept 3].
Proof.
  assert (Hdelay : (0 <= 3)%Q) by discriminate.
  split; [exact Hdelay|].
  destruct (RetryFacts.call_model_with_retry_policy
              (failing_service "Error code: 429") no_entropy [] "gpt-4o" 1000 3
              Hdelay 2 world0)
    as (_ & _ & _ & Hexhausted & _).
  cbv zeta. rewrite Hexhausted.
  - repeat split.
  - intros i _. exists "Error code: 429". split; reflexivity.
Defined.

(** * Further properties *)

(** ** The model handler at the edges of its parameters *)

Module RetryEdges.
Section WithService.

Variable client : nat -> request -> api_outcome.
Variable entropy : nat -> Z.
Variables (messages : list message) (model : string) (max_tokens : Z).

Local Abbreviation req := (Request model messages max_tokens).

(** X1. With [max_attempts] zero or negative the loop has no iteration:
    [None] is returned at once, no request is sent and nothing is slept,
    whatever [base_delay] is. *)
Theorem no_attempt_no_request (max_attempts : Z) (base_delay : Q) (w : world) :
  max_attempts <= 0 ->
  ModelHandler.call_model_with_retry client entropy messages model max_tokens
                                     max_attempts base_delay w
  = (Ok None, w).
Proof.
  intros Hn. unfold ModelHandler.call_model_with_retry, range.
  replace (Z.to_nat max_attempts) with 0%nat by lia. reflexivity.
Qed.

Lemma requests_of_app (l1 l2 : list event) :
  requests_of (l1 ++ l2) = (requests_of l1 ++ requests_of l2)%list.
Proof.
  induction l1 as [|[r|d] l1 IH]; cbn; [reflexivity | now rewrite IH | exact IH].
Qed.

(** With a negative [base_delay] the body of the loop raises, however the
    request ended. *)
Lemma body_negative_delay (base_delay : Q) (attempt : Z) (w : world) :
  (base_delay < 0)%Q ->
  exists w',
    ModelHandler.attempt_body client entropy messages model max_tokens
                              base_delay attempt w = (Raise ValueError, w') /\
    api_calls w' = S (api_calls w) /\
    requests_of (log w') = (requests_of (log w) ++ [req])%list.
Proof.
  intros Hneg.
  assert (Hsleep : Qle_bool 0 base_delay = false).
  { destruct (Qle_bool 0 base_delay) eqn:E; [|reflexivity].
    apply Qle_bool_iff in E. exfalso. apply (Qlt_not_le _ _ Hneg E). }
  unfold ModelHandler.attempt_body, try_finally, try_except, bind at 1,
    ModelHandler._call_gpt.
  destruct (client (api_calls w) req) as [r|message].
  - unfold ret, sleep. cbn [api_calls draws log]. rewrite Hsleep.
    eexists. split; [reflexivity|]. cbn [api_calls log].
    split; [reflexivity|]. now rewrite requests_of_app.
  - cbn [exn_str]. destruct (contains "429" message).
    + unfold bind, randint, ret. cbn [api_calls draws log].
      unfold sleep at 1. cbn [api_calls draws log].
      destruct (Qle_bool 0 (_ + _)).
      * unfold sleep. cbn [api_calls draws log]. rewrite Hsleep.
        eexists. split; [reflexivity|]. cbn [api_calls log].
        split; [reflexivity|]. rewrite !requests_of_app. cbn [requests_of].
        now rewrite List.app_nil_r.
      * unfold sleep. cbn [api_calls draws log]. rewrite Hsleep.
        eexists. split; [reflexivity|]. cbn [api_calls log].
        split; [reflexivity|]. now rewrite requests_of_app.
    + unfold ret, sleep. cbn [api_calls draws log]. rewrite Hsleep.
      eexists. split; [reflexivity|]. cbn [api_calls log].
      split; [reflexivity|]. now rewrite requests_of_app.
Qed.

(** X2. With a negative [base_delay] and at least one attempt, the sleep
    of the [finally] clause raises [ValueError] after the first request,
    whether that request succeeded or not: the response is lost and no
    second request is sent. *)
Theorem negative_base_delay_raises (max_attempts : Z) (base_delay : Q) (w : world) :
  1 <= max_attempts ->
  (base_delay < 0)%Q ->
  exists w',
    ModelHandler.call_model_with_retry client entropy messages model max_tokens
                                       max_attempts base_delay w
    = (Raise ValueError, w') /\
    api_calls w' = S (api_calls w) /\
    requests_of (log w') = (requests_of (log w) ++ [req])%list.
Proof.
  intros Hn Hneg.
  unfold ModelHandler.call_model_with_retry, range.
  destruct (Z.to_nat max_attempts) as [|n] eqn:En; [lia|].
  cbn [seq map ModelHandler.for_attempts]. unfold bind at 1.
  destruct (body_negative_delay base_delay (Z.of_nat 0) w Hneg) as (w' & -> & Hc & Hr).
  exists w'. auto.
Qed.

End WithService.
End RetryEdges.

(** ** How long one call can sleep *)

Module RetryBudget.
Section WithService.

Variable client : nat -> request -> api_outcome.
Variable entropy : nat -> Z.
Variables (messages : list message) (model : string) (max_tokens : Z).
Variable base_delay : Q.
Hypothesis base_delay_nonneg : (0 <= base_delay)%Q.

Local Abbreviation loop :=
  (ModelHandler.for_attempts client entropy messages model max_tokens base_delay).
Local Abbreviation p2 n := (inject_Z (2 ^ Z.of_nat n)).

Lemma p2_S n : p2 (S n) == 2 * p2 n.
Proof.
  rewrite Nat2Z.inj_succ, Z.pow_succ_r by lia.
  now rewrite inject_Z_mult.
Qed.

Lemma p2_mono a b : (a <= b)%nat -> (p2 a <= p2 b)%Q.
Proof.
  intros H. rewrite <- Zle_Qle. apply Z.pow_le_mono_r; lia.
Qed.

Lemma total_slept_app l1 l2 :
  total_slept (l1 ++ l2) == total_slept l1 + total_slept l2.
Proof.
  induction l1 as [|[r|d] l1 IH]; cbn [app total_slept].
  - lra.
  - exact IH.
  - rewrite IH. lra.
Qed.

Lemma backoff_le s d : (backoff entropy (Z.of_nat s) d <= p2 (s + 1) + 1)%Q.
Proof.
  unfold backoff. destruct (RetryFacts.jitter_bounds entropy d) as [_ Hj].
  replace (Z.of_nat s + 1) with (Z.of_nat (s + 1)) by lia. lra.
Qed.

(** The attempts numbered [s], ..., [s + k - 1] sleep at most the sum of
    their back-offs, jitters and fixed delays. *)
Lemma loop_sleep_budget k :
  forall s w,
    exists o w',
      loop (map Z.of_nat (seq s k)) w = (Ok o, w') /\
      (total_slept (log w') <=
       total_slept (log w) + (p2 (s + k + 1) - p2 (s + 1))
       + inject_Z (Z.of_nat k) * (1 + base_delay))%Q.
Proof.
  induction k as [|k IH]; intros s w.
  - exists None, w. split; [reflexivity|].
    rewrite Nat.add_0_r. change (inject_Z (Z.of_nat 0)) with 0%Q. lra.
  - cbn [seq map ModelHandler.for_attempts]. unfold bind at 1.
    assert (Hk : inject_Z (Z.of_nat (S k)) == inject_Z (Z.of_nat k) + 1).
    { rewrite Nat2Z.inj_succ. unfold Z.succ. now rewrite inject_Z_plus. }
    assert (Hgrow : (p2 (s + 1) <= p2 (s + S k + 1))%Q) by (apply p2_mono; lia).
    assert (Hk0 : (0 <= inject_Z (Z.of_nat k))%Q).
    { change 0%Q with (inject_Z 0). rewrite <- Zle_Qle. lia. }
    assert (Hkb : (0 <= inject_Z (Z.of_nat k) * (1 + base_delay))%Q).
    { apply Qmult_le_0_compat; [exact Hk0 | lra]. }
    destruct (client (api_calls w) (Request model messages max_tokens))
      as [r|message] eqn:Hc.
    + rewrite (RetryFacts.body_success client entropy messages model max_tokens
                 base_delay base_delay_nonneg _ w r Hc).
      eexists _, _. split; [reflexivity|]. cbn [log].
      rewrite total_slept_app. cbn [total_slept]. rewrite Hk. lra.
    + destruct (contains "429" message) eqn:H429.
      * rewrite (RetryFacts.body_rate_limited client entropy messages model
                   max_tokens base_delay base_delay_nonneg (Z.of_nat s) w);
          [| lia | now exists message].
        match goal with
        | |- context [loop _ ?w1] => destruct (IH (S s) w1) as (o & w' & -> & Hb)
        end.
        exists o, w'. split; [reflexivity|].
        cbn [log] in Hb. rewrite total_slept_app in Hb. cbn [total_slept] in Hb.
        pose proof (backoff_le s (draws w)) as Hbo.
        replace (S s + k + 1)%nat with (s + S k + 1)%nat in Hb by lia.
        replace (S s + 1)%nat with (S (s + 1)) in Hb by lia.
        rewrite p2_S in Hb. rewrite Hk. lra.
      * rewrite (RetryFacts.body_other_error client entropy messages model
                   max_tokens base_delay base_delay_nonneg _ w message Hc H429).
        eexists _, _. split; [reflexivity|]. cbn [log].
        rewrite total_slept_app. cbn [total_slept]. rewrite Hk. lra.
Qed.

(** X3. With a [base_delay] that is not negative, one call of
    [call_model_with_retry] with [n] attempts sleeps at most
    [2^(n+1) - 2 + n * (1 + base_delay)] seconds in all, whatever the
    service answers: the back-offs [2^1], ..., [2^n], one second of jitter
    each at most, and the fixed delays. *)
Theorem call_sleeps_at_most (max_attempts : Z) (w : world) :
  let n := Z.to_nat max_attempts in
  exists o w',
    ModelHandler.call_model_with_retry client entropy messages model max_tokens
                                       max_attempts base_delay w = (Ok o, w') /\
    (total_slept (log w') <=
     total_slept (log w) + inject_Z (2 ^ (Z.of_nat n + 1) - 2)
     + inject_Z (Z.of_nat n) * (1 + base_delay))%Q.
Proof.
  intros n. unfold ModelHandler.call_model_with_retry, range. fold n.
  destruct (loop_sleep_budget n 0 w) as (o & w' & Hrun & Hb).
  exists o, w'. split; [exact Hrun|].
  cbn [Nat.add] in Hb.
  replace (Z.of_nat n + 1) with (Z.of_nat (n + 1)) by lia.
  unfold Z.sub. rewrite inject_Z_plus.
  change (inject_Z (2 ^ Z.of_nat 1)) with 2%Q in Hb.
  change (inject_Z (- (2))) with (- (2))%Q. lra.
Qed.

End WithService.
End RetryBudget.

Lemma call_sleeps_at_most_witness :
  (0 <= 3)%Q /\
  exists o w',
    ModelHandler.call_model (failing_service "Error code: 429") no_entropy
                            [] "gpt-4o" 4000 world0 = (Ok o, w') /\
    (total_slept (log w') <= 150)%Q.
Proof.
  assert (Hdelay : (0 <= 3)%Q) by discriminate.
  split; [exact Hdelay|].
  destruct (RetryBudget.call_sleeps_at_most (failing_service "Error code: 429")
              no_entropy [] "gpt-4o" 4000 3 Hdelay 6 world0)
    as (o & w' & Hrun & Hb).
  exists o, w'. split; [exact Hrun|].
  eapply Qle_trans; [exact Hb|]. vm_compute. discriminate.
Defined.

(** ** Code fences, where they are removed correctly *)

Module FenceFacts.

Lemma append_assoc (a b c : string) : ((a ++ b) ++ c = a ++ (b ++ c))%string.
Proof. induction a as [|x a IH]; cbn; [reflexivity | now rewrite IH]. Qed.

Lemma lstrip_keep p s a :
  first_char s = Some a -> p a = false -> lstrip_by p s = s.
Proof.
  destruct s as [|c s]; cbn; [discriminate|].
  intros [= ->] ->. reflexivity.
Qed.

Lemma lstrip_app_all p pre s :
  all_chars p pre = true -> lstrip_by p (pre ++ s) = lstrip_by p s.
Proof.
  induction pre as [|c pre IH]; cbn; [reflexivity|].
  intros H. apply andb_true_iff in H as [-> H]. now apply IH.
Qed.

Lemma rstrip_all p s : all_chars p s = true -> rstrip_by p s = EmptyString.
Proof.
  induction s as [|c s IH]; cbn; [reflexivity|].
  intros H. apply andb_true_iff in H as [-> H]. now rewrite IH.
Qed.

Lemma rstrip_app_all p s suf :
  all_chars p suf = true -> rstrip_by p (s ++ suf) = rstrip_by p s.
Proof.
  intros H. induction s as [|c s IH]; cbn.
  - now apply rstrip_all.
  - now rewrite IH.
Qed.

Lemma rstrip_keep p s b :
  last_char s = Some b -> p b = false -> rstrip_by p s = s.
Proof.
  induction s as [|c s IH]; [discriminate|].
  destruct s as [|c' s'].
  - cbn. intros [= ->] ->. reflexivity.
  - intros Hl Hb. specialize (IH Hl Hb).
    cbn [rstrip_by] in IH |- *. rewrite IH. reflexivity.
Qed.

Lemma last_char_app s c t :
  last_char (s ++ String c t) = last_char (String c t).
Proof.
  induction s as [|x s IH]; [reflexivity|].
  cbn [append]. destruct (s ++ String c t)%string eqn:E.
  - destruct s; discriminate.
  - exact IH.
Qed.

Lemma last_char_app_nonempty s t b :
  last_char t = Some b -> last_char (s ++ t) = Some b.
Proof.
  destruct t as [|c t]; [discriminate|].
  intros H. now rewrite last_char_app.
Qed.

Lemma first_char_app s t a :
  first_char s = Some a -> first_char (s ++ t) = Some a.
Proof. destruct s; [discriminate | intros H; exact H]. Qed.

(** X4. A payload whose first and last characters are neither white
    space nor one of the characters [`], [j], [s], [o], [n] goes through
    the three [strip] calls unchanged, bare as well as inside a
    [```json] fence: both forms give the same text to the decoder. *)
Theorem fence_round_trip (payload : string) (a b : ascii) :
  first_char payload = Some a ->
  last_char payload = Some b ->
  fence_safe a = true ->
  fence_safe b = true ->
  strip_code_fence (strip payload) = payload /\
  strip_code_fence (strip (fenced payload)) = payload.
Proof.
  intros Hfirst Hlast Ha Hb.
  apply andb_true_iff in Ha as [Haj Has]. apply andb_true_iff in Hb as [Hbj Hbs].
  apply negb_true_iff in Haj, Has, Hbj, Hbs.
  assert (Hat : mem_char a "```" = false).
  { cbn in Haj |- *. repeat (apply orb_false_iff in Haj as [? Haj]).
    repeat (apply orb_false_iff; split); auto. }
  assert (Hbt : mem_char b "```" = false).
  { cbn in Hbj |- *. repeat (apply orb_false_iff in Hbj as [? Hbj]).
    repeat (apply orb_false_iff; split); auto. }
  assert (Hbare : strip_code_fence (strip payload) = payload).
  { unfold strip_code_fence, strip, strip_chars.
    rewrite (lstrip_keep is_space payload a Hfirst Has).
    rewrite (rstrip_keep is_space payload b Hlast Hbs).
    rewrite (lstrip_keep _ payload a Hfirst Haj).
    rewrite (rstrip_keep _ payload b Hlast Hbj).
    rewrite (lstrip_keep _ payload a Hfirst Hat).
    rewrite (rstrip_keep _ payload b Hlast Hbt).
    rewrite (lstrip_keep is_space payload a Hfirst Has).
    now rewrite (rstrip_keep is_space payload b Hlast Hbs). }
  split; [exact Hbare|].
  unfold fenced, strip_code_fence.
  (* the white space around the fence: none *)
  assert (H1 : strip ("```json" ++ nl ++ payload ++ nl ++ "```")
               = ("```json" ++ nl ++ payload ++ nl ++ "```")%string).
  { unfold strip. rewrite (lstrip_keep is_space _ "`"%char); [|reflexivity|reflexivity].
    apply (rstrip_keep is_space _ "`"%char); [|reflexivity].
    repeat apply last_char_app_nonempty. reflexivity. }
  rewrite H1.
  (* the set of the first call *)
  assert (H2 : strip_chars ("```json" ++ nl ++ payload ++ nl ++ "```") "```json"
               = (nl ++ payload ++ nl)%string).
  { unfold strip_chars.
    rewrite lstrip_app_all by reflexivity.
    rewrite (lstrip_keep _ _ "010"%char); [|reflexivity|reflexivity].
    replace (nl ++ payload ++ nl ++ "```")%string
      with ((nl ++ payload ++ nl) ++ "```")%string
      by (now rewrite !append_assoc).
    rewrite rstrip_app_all by reflexivity.
    apply (rstrip_keep _ _ "010"%char); [|reflexivity].
    repeat apply last_char_app_nonempty. reflexivity. }
  rewrite H2.
  (* the set of the second call *)
  assert (H3 : strip_chars (nl ++ payload ++ nl) "```" = (nl ++ payload ++ nl)%string).
  { unfold strip_chars.
    rewrite (lstrip_keep _ _ "010"%char); [|reflexivity|reflexivity].
    apply (rstrip_keep _ _ "010"%char); [|reflexivity].
    repeat apply last_char_app_nonempty. reflexivity. }
  rewrite H3.
  (* the line feeds *)
  unfold strip. rewrite lstrip_app_all by reflexivity.
  rewrite (lstrip_keep is_space _ a); [| now apply first_char_app | exact Has].
  rewrite rstrip_app_all by reflexivity.
  exact (rstrip_keep is_space payload b Hlast Hbs).
Qed.

End FenceFacts.

Lemma fence_round_trip_witness :
  let payload := qt "{'reasoning': 'fine', 'confidence': 9, 'rating': 0}" in
  strip_code_fence (strip payload) = payload /\
  strip_code_fence (strip (fenced payload)) = payload.
Proof.
  cbv zeta.
  apply (FenceFacts.fence_round_trip _ "{"%char "}"%char); reflexivity.
Defined.

(** ** The quality score as a weighted average *)

Module AverageFacts.

(** On entries of the documented shape the loop computes the two sums. *)
Lemma accumulate_all_sums ws ts :
  forall n d,
    EvalPipeline.accumulate_all ws (n, d) (map entry_of ts)
    = Ok (total_rating ws n ts, total_weight ws d ts).
Proof.
  induction ts as [|[[name c] r] ts IH]; intros n d; [reflexivity|].
  cbn [map EvalPipeline.accumulate_all]. cbn -[EvalPipeline.accumulate_all
    EvalPipeline.weights_get upper Qplus Qmult].
  rewrite IH. reflexivity.
Qed.

(** The value returned for a numerator and a denominator. *)
Lemma quality_of_sums ws ts :
  EvalPipeline.compute_quality_score (map entry_of ts) ws
  = Ok (let numerator := total_rating (table_of ws) 0 ts in
        let denominator := total_weight (table_of ws) 0 ts in
        1 + ((5 - (if negb (Qeq_bool denominator 0)
                   then numerator / denominator else 0)) / 5) * 9)%Q.
Proof.
  unfold EvalPipeline.compute_quality_score.
  change (match ws with
          | Some w => w
          | None => EvalPipeline.default_importance_weights
          end) with (table_of ws).
  rewrite accumulate_all_sums. reflexivity.
Qed.

Lemma total_weight_shift ws ts :
  forall d, total_weight ws d ts == d + total_weight ws 0 ts.
Proof.
  unfold total_weight.
  induction ts as [|t ts IH]; intros d; cbn [fold_left].
  - lra.
  - rewrite (IH (d + weight_of ws t)%Q), (IH (0 + weight_of ws t)%Q). lra.
Qed.


Lemma total_weight_cons ws t ts :
  total_weight ws 0 (t :: ts) == weight_of ws t + total_weight ws 0 ts.
Proof.
  unfold total_weight at 1. cbn [fold_left]. fold (total_weight ws (0 + weight_of ws t) ts).
  rewrite total_weight_shift. lra.
Qed.





Lemma total_weight_no_certainty ws ts :
  Forall (fun t => snd (fst t) == 0) ts -> total_weight ws 0 ts == 0.
Proof.
  induction 1 as [|[[name c] r] ts Hc _ IH].
  - reflexivity.
  - rewrite total_weight_cons, IH. cbn [weight_of]. cbn [fst snd] in Hc.
    rewrite Hc. ring.
Qed.



(** X5. Entries whose certainty is zero carry no weight: when every
    certainty is zero (and for the empty list) the denominator is zero,
    the impact is taken to be 0 and the quality is 10, the best value,
    whatever the ratings are. *)
Theorem no_certainty_gives_best_quality ws ts :
  Forall (fun t => snd (fst t) == 0) ts ->
  exists quality,
    EvalPipeline.compute_quality_score (map entry_of ts) ws = Ok quality /\
    quality == 10.
Proof.
  intros Hall. rewrite quality_of_sums. eexists. split; [reflexivity|].
  cbv zeta.
  assert (Hd : Qeq_bool (total_weight (table_of ws) 0 ts) 0 = true).
  { apply Qeq_bool_iff. now apply total_weight_no_certainty. }
  rewrite Hd. reflexivity.
Qed.



(** X8. The default table never applies: for every list of scores,
    calling [compute_quality_score] without weights gives the result of
    calling it with an empty table, where every importance is 1.0. *)
Theorem default_table_has_no_effect (scores : list pyval) :
  EvalPipeline.compute_quality_score scores None
  = EvalPipeline.compute_quality_score scores (Some []).
Proof.
  unfold EvalPipeline.compute_quality_score.
  assert (H : forall scores acc,
             EvalPipeline.accumulate_all EvalPipeline.default_importance_weights acc scores
             = EvalPipeline.accumulate_all [] acc scores).
  { clear scores. induction scores as [|entry rest IH]; intros acc; [reflexivity|].
    cbn [EvalPipeline.accumulate_all].
    assert (Hstep : EvalPipeline.accumulate EvalPipeline.default_importance_weights acc entry
                    = EvalPipeline.accumulate [] acc entry).
    { unfold EvalPipeline.accumulate. destruct acc as [numerator denominator].
      destruct (py_getitem entry "criteria") as [c|e]; [|reflexivity].
      cbn [rbind]. destruct c as [| | | |name| |]; try reflexivity.
      cbn [py_upper rbind]. rewrite default_importance_is_one. reflexivity. }
    rewrite Hstep. destruct (EvalPipeline.accumulate [] acc entry); [|reflexivity].
    cbn [rbind]. apply IH. }
  now rewrite H.
Qed.

(** An exception raised for one entry is the outcome of the whole call,
    whatever follows the entry. *)
Lemma first_failure_decides ws ts entry rest err :
  (forall acc, EvalPipeline.accumulate (table_of ws) acc entry = Raise err) ->
  EvalPipeline.compute_quality_score (map entry_of ts ++ entry :: rest) ws = Raise err.
Proof.
  intros Herr. unfold EvalPipeline.compute_quality_score.
  change (match ws with
          | Some w => w
          | None => EvalPipeline.default_importance_weights
          end) with (table_of ws).
  assert (H : forall acc,
             EvalPipeline.accumulate_all (table_of ws) acc
               (map entry_of ts ++ entry :: rest) = Raise err).
  { induction ts as [|[[name c] r] ts IH]; intros acc.
    - cbn [map app EvalPipeline.accumulate_all]. now rewrite Herr.
    - cbn [map app EvalPipeline.accumulate_all].
      destruct acc as [n d].
      cbn -[EvalPipeline.accumulate_all EvalPipeline.weights_get upper Qplus Qmult].
      apply IH. }
  now rewrite H.
Qed.

(** X9. The first entry that is not of the documented shape decides the
    exception of [compute_quality_score], after any number of well-formed
    entries and whatever follows it: [TypeError] for an entry that is not
    a dictionary, [KeyError] for a missing ['criteria'], ['certainty'] or
    ['rating'], [AttributeError] for a criterion that is not a string,
    [TypeError] for a certainty or a rating that is not a number. *)
Theorem malformed_entry_raises ws ts (entry : pyval) (rest : list pyval) :
  let run := EvalPipeline.compute_quality_score (map entry_of ts ++ entry :: rest) ws in
  ((forall d, entry <> PDict d) -> run = Raise TypeError) /\
  (forall d, entry = PDict d ->
     (dict_find d "criteria" = None -> run = Raise KeyError) /\
     (forall v, dict_find d "criteria" = Some v -> (forall name, v <> PStr name) ->
                run = Raise AttributeError) /\
     (forall name, dict_find d "criteria" = Some (PStr name) ->
        (dict_find d "certainty" = None -> run = Raise KeyError) /\
        (forall c, dict_find d "certainty" = Some c ->
           (dict_find d "rating" = None -> run = Raise KeyError) /\
           (forall r, dict_find d "rating" = Some r ->
              (py_num c = Raise TypeError -> run = Raise TypeError) /\
              (py_num r = Raise TypeError -> run = Raise TypeError))))).
Proof.
  cbv zeta. split.
  - intros Hnd. apply first_failure_decides. intros [n d].
    unfold EvalPipeline.accumulate.
    destruct entry; try reflexivity. exfalso. now apply (Hnd d0).
  - intros d ->. split; [|split].
    + intros Hc. apply first_failure_decides. intros [n d0].
      unfold EvalPipeline.accumulate, py_getitem, dict_getitem. now rewrite Hc.
    + intros v Hc Hv. apply first_failure_decides. intros [n d0].
      unfold EvalPipeline.accumulate, py_getitem, dict_getitem. rewrite Hc.
      cbn [rbind]. destruct v; try reflexivity. exfalso. now apply (Hv s).
    + intros name Hc. split.
      * intros Hcert. apply first_failure_decides. intros [n d0].
        unfold EvalPipeline.accumulate, py_getitem, dict_getitem.
        rewrite Hc. cbn [rbind py_upper]. now rewrite Hcert.
      * intros c Hcert. split.
        -- intros Hr. apply first_failure_decides. intros [n d0].
           unfold EvalPipeline.accumulate, py_getitem, dict_getitem.
           rewrite Hc. cbn [rbind py_upper]. rewrite Hcert. cbn [rbind].
           now rewrite Hr.
        -- intros r Hr. split.
           ++ intros Hnum. apply first_failure_decides. intros [n d0].
              unfold EvalPipeline.accumulate, py_getitem, dict_getitem.
              rewrite Hc. cbn [rbind py_upper]. rewrite Hcert. cbn [rbind].
              rewrite Hr. cbn [rbind]. now rewrite Hnum.
           ++ intros Hnum. apply first_failure_decides. intros [n d0].
              unfold EvalPipeline.accumulate, py_getitem, dict_getitem.
              rewrite Hc. cbn [rbind py_upper]. rewrite Hcert. cbn [rbind].
              rewrite Hr. cbn [rbind]. rewrite Hnum.
              destruct c; reflexivity.
Qed.

End AverageFacts.


Lemma no_certainty_gives_best_quality_witness :
  exists quality,
    EvalPipeline.compute_quality_score
      (map entry_of [("omission", 0, 5); ("structure", 0, 4)]%Q) None = Ok quality /\
    quality == 10.
Proof.
  apply AverageFacts.no_certainty_gives_best_quality.
  repeat constructor.
Defined.


Lemma malformed_entry_raises_witness :
  EvalPipeline.compute_quality_score
    (map entry_of [("omission", 0.8, 3)]%Q
       ++ PDict [("criteria", PStr "structure"); ("certainty", PStr "high");
                 ("rating", PInt 2)]
       :: [PNone])%list None
  = Raise TypeError.
Proof.
  destruct (AverageFacts.malformed_entry_raises None [("omission", 0.8, 3)]%Q
              (PDict [("criteria", PStr "structure"); ("certainty", PStr "high");
                      ("rating", PInt 2)]) [PNone]) as [_ H].
  destruct (H _ eq_refl) as (_ & _ & H1).
  destruct (H1 "structure" eq_refl) as [_ H2].
  destruct (H2 (PStr "high") eq_refl) as [_ H3].
  destruct (H3 (PInt 2) eq_refl) as [H4 _].
  apply H4. reflexivity.
Defined.

(** ** The requests a run sends to a service that completes them *)

Module RequestFacts.
Section WithService.

Variable client : nat -> request -> api_outcome.
Variable entropy : nat -> Z.
Hypothesis service_completes : always_completes client.

(** One call of the handler is then one request followed by the fixed
    delay of three seconds. *)
Lemma call_model_once messages model max_tokens w :
  exists r,
    ModelHandler.call_model client entropy messages model max_tokens w
    = (Ok (Some r),
       World (S (api_calls w)) (draws w)
             (log w ++ [Called (Request model messages max_tokens); Slept 3])).
Proof.
  destruct (service_completes (api_calls w) (Request model messages max_tokens))
    as (r & Hr).
  exists r. unfold ModelHandler.call_model, ModelHandler.call_model_with_retry.
  change (range 6) with (0 :: map Z.of_nat (seq 1 5)).
  cbn [ModelHandler.for_attempts]. unfold bind at 1.
  rewrite (RetryFacts.body_success client entropy messages model max_tokens 3
             ltac:(discriminate) 0 w r Hr).
  reflexivity.
Qed.

Lemma requests_of_call (events : list event) (r : request) (d : Q) :
  requests_of (events ++ [Called r; Slept d]) = (requests_of events ++ [r])%list.
Proof. now rewrite RetryEdges.requests_of_app. Qed.

Section OneByOne.

Variable self : pipeline.

(** The request the one-by-one pipeline sends for a criterion. *)
Local Abbreviation request_for data criterion :=
  (Request (model_id self)
           (two_messages BaselinePipeline.system_prompt
              (BaselinePipeline.user_prompt data (fst criterion) (snd criterion)))
           4000).



End OneByOne.

End WithService.
End RequestFacts.

(** ** The all-at-once pipeline *)

Module AllAtOnceFacts.
Section WithService.

Variable client : nat -> request -> api_outcome.
Variable entropy : nat -> Z.
Variable self : pipeline.

(** Building an assessment touches nothing outside. *)
Lemma assessment_pure crit_name details w :
  snd (SimpleBaselinePipeline.assessment crit_name details w) = w.
Proof.
  unfold SimpleBaselinePipeline.assessment, bind, lift, ret.
  destruct (py_get details "reasoning" (PStr EmptyString)); [|reflexivity].
  destruct (py_get details "confidence" (PInt 0)) as [c|]; [|reflexivity].
  destruct (py_int c); [|reflexivity].
  destruct (py_get details "rating" (PInt 0)) as [r|]; [|reflexivity].
  destruct (py_int r); reflexivity.
Qed.

Lemma assessments_pure (items : pydict) :
  forall w,
    snd (for_each (fun '(crit_name, details) =>
                     SimpleBaselinePipeline.assessment crit_name details) items w) = w.
Proof.
  induction items as [|[name details] rest IH]; intros w; [reflexivity|].
  cbn [for_each]. unfold bind at 1.
  pose proof (assessment_pure name details w) as Hp.
  destruct (SimpleBaselinePipeline.assessment name details w) as [[a|e] w1];
    cbn [snd] in Hp; subst w1; [|reflexivity].
  unfold bind at 1. specialize (IH w).
  destruct (for_each _ rest w) as [[bs|e] w2]; cbn [snd] in IH; subst w2; reflexivity.
Qed.



Hypothesis service_completes : always_completes client.

Lemma simple_pipeline_one_request data criteria_dict w :
  exists reply,
    SimpleBaselinePipeline.pipeline client entropy self data criteria_dict w
    = (Ok reply,
       World (S (api_calls w)) (draws w)
             (log w ++ [Called (Request (model_id self)
                                  (two_messages SimpleBaselinePipeline.system_prompt
                                     (SimpleBaselinePipeline.user_prompt data criteria_dict))
                                  4000);
                        Slept 3])).
Proof.
  unfold SimpleBaselinePipeline.pipeline, bind.
  destruct (RequestFacts.call_model_once client entropy service_completes
              (two_messages SimpleBaselinePipeline.system_prompt
                 (SimpleBaselinePipeline.user_prompt data criteria_dict))
              (model_id self) 4000 w) as (r & ->).
  cbn [message_content lift].
  destruct (Json.loads (strip_code_fence (strip (choice_content r))));
    eexists; reflexivity.
Qed.

Lemma interpolated_user_prompt data criteria_dict model :
  interpolated (Request model
                  (two_messages SimpleBaselinePipeline.system_prompt
                     (SimpleBaselinePipeline.user_prompt data criteria_dict))
                  4000)
  = transcript data :: summary data :: map snd criteria_dict.
Proof.
  unfold interpolated, SimpleBaselinePipeline.user_prompt, two_messages.
  cbn [req_messages flat_map content SimpleBaselinePipeline.system_prompt app].
  rewrite flat_map_app. cbn [flat_map app].
  rewrite List.app_nil_r. do 2 f_equal. rewrite List.app_nil_r.
  unfold SimpleBaselinePipeline.combined_criteria.
  induction criteria_dict as [|[name definition] rest IH]; [reflexivity|].
  cbn [flat_map map snd app]. now rewrite IH.
Qed.

(** X12. On a service that completes every request, the all-at-once
    [run] sends exactly one request, whatever the number of criteria and
    whether or not the reply can be used; its prompt interpolates the
    transcript, the summary and the definitions of all the criteria in
    order. *)
Theorem all_at_once_sends_one_request data w :
  let w' := snd (SimpleBaselinePipeline.run client entropy self data w) in
  let r := Request (model_id self)
                   (two_messages SimpleBaselinePipeline.system_prompt
                      (SimpleBaselinePipeline.user_prompt data (criteria self)))
                   4000 in
  api_calls w' = S (api_calls w) /\
  requests_of (log w') = (requests_of (log w) ++ [r])%list /\
  interpolated r = (transcript data :: summary data :: map snd (criteria self)).
Proof.
  cbv zeta.
  assert (Hw : snd (SimpleBaselinePipeline.run client entropy self data w)
               = World (S (api_calls w)) (draws w)
                       (log w ++ [Called (Request (model_id self)
                                    (two_messages SimpleBaselinePipeline.system_prompt
                                       (SimpleBaselinePipeline.user_prompt data
                                          (criteria self))) 4000);
                                  Slept 3])).
  { unfold SimpleBaselinePipeline.run, bind at 1.
    destruct (simple_pipeline_one_request data (criteria self) w) as (reply & ->).
    unfold bind at 1, lift. destruct (py_items reply) as [items|e]; [|reflexivity].
    apply assessments_pure. }
  rewrite Hw. cbn [api_calls log].
  split; [reflexivity|]. split; [apply RequestFacts.requests_of_call|].
  apply interpolated_user_prompt.
Qed.

End WithService.
End AllAtOnceFacts.


Lemma constant_service_completes text : always_completes (constant_service text).
Proof. intros n r. now exists (Response text). Qed.

Lemma all_at_once_sends_one_request_witness :
  api_calls (snd (SimpleBaselinePipeline.run (constant_service "no json here")
                    no_entropy demo_pipeline demo_sample world0)) = 1%nat.
Proof.
  exact (proj1 (AllAtOnceFacts.all_at_once_sends_one_request
                  (constant_service "no json here") no_entropy demo_pipeline
                  (fun n r => ex_intro _ (Response "no json here") eq_refl)
                  demo_sample world0)).
Defined.


(** ** The protocol of a brainstorming *)

Module PanelFacts.
Section WithService.

Variable client : nat -> request -> api_outcome.
Variable entropy : nat -> Z.
Hypothesis service_completes : always_completes client.

(** A loop whose body always sends the same [k] requests and returns [k]
    results sends them once per element. *)
Lemma for_each_blocks {A B} (f : A -> M (list B)) (r : request) (k : nat) (l : list A) :
  (forall a w, exists b w',
      f a w = (Ok b, w') /\ List.length b = k /\
      api_calls w' = (api_calls w + k)%nat /\
      requests_of (log w') = (requests_of (log w) ++ repeat r k)%list) ->
  forall w, exists bs w',
      for_each f l w = (Ok bs, w') /\
      List.length (List.concat bs) = (k * List.length l)%nat /\
      api_calls w' = (api_calls w + k * List.length l)%nat /\
      requests_of (log w')
      = (requests_of (log w) ++ repeat r (k * List.length l))%list.
Proof.
  intros Hf. induction l as [|a l IH]; intros w.
  - exists [], w. cbn. rewrite Nat.mul_0_r, Nat.add_0_r, List.app_nil_r. auto.
  - cbn [for_each]. unfold bind at 1.
    destruct (Hf a w) as (b & w1 & -> & Hlen & Hc & Hr).
    unfold bind at 1. destruct (IH w1) as (bs & w2 & -> & Hlen2 & Hc2 & Hr2).
    exists (b :: bs), w2. split; [reflexivity|].
    cbn [List.concat List.length]. rewrite length_app, Hlen, Hlen2.
    split; [lia|]. split; [lia|].
    rewrite Hr2, Hr, <- app_assoc, <- repeat_app. f_equal. f_equal. lia.
Qed.

Lemma call_gpt_once self system_prompt user_prompt interprete_literal w :
  exists answer w',
    Panel.call_gpt client entropy self system_prompt user_prompt interprete_literal w
    = (Ok answer, w') /\
    api_calls w' = S (api_calls w) /\
    requests_of (log w')
    = (requests_of (log w)
         ++ [Request (Panel.panel_model_id self)
                     (two_messages system_prompt user_prompt) 4000])%list.
Proof.
  unfold Panel.call_gpt, bind.
  destruct (RequestFacts.call_model_once client entropy service_completes
              (two_messages system_prompt user_prompt)
              (Panel.panel_model_id self) 4000 w) as (r & ->).
  cbn [message_content lift].
  destruct interprete_literal;
    [destruct (Json.loads (strip_code_fence (strip (choice_content r))))|];
    eexists _, _; (split; [reflexivity|]); cbn [api_calls log];
    (split; [reflexivity | apply RequestFacts.requests_of_call]).
Qed.

(** One round: every agent receives the same request. *)
Lemma round_requests self agent_system_prompt agent_user_prompt round_num w :
  exists outputs w',
    Panel.brainstorming_round client entropy self agent_system_prompt
                              agent_user_prompt round_num w = (Ok outputs, w') /\
    List.length outputs = List.length (Panel.agents self) /\
    api_calls w' = (api_calls w + List.length (Panel.agents self))%nat /\
    requests_of (log w')
    = (requests_of (log w)
         ++ repeat (Request (Panel.panel_model_id self)
                            (two_messages agent_system_prompt agent_user_prompt) 4000)
                   (List.length (Panel.agents self)))%list.
Proof.
  unfold Panel.brainstorming_round, Panel.process.
  induction (Panel.agents self) as [|a l IH] in w |- *.
  - exists [], w. cbn. rewrite Nat.add_0_r, List.app_nil_r. auto.
  - cbn [for_each]. unfold bind at 1. unfold bind at 1.
    destruct (call_gpt_once self agent_system_prompt agent_user_prompt false w)
      as (out & w1 & -> & Hc & Hr).
    unfold ret at 1. unfold bind at 1.
    destruct (IH w1) as (outs & w2 & -> & Hlen & Hc2 & Hr2).
    eexists _, w2. split; [reflexivity|]. cbn [List.length repeat].
    split; [now rewrite Hlen|]. split; [lia|].
    rewrite Hr2, Hr, <- app_assoc. reflexivity.
Qed.

(** X13. On a service that completes every request, a brainstorming
    with [n] agents and [rounds] rounds sends [2 + n * rounds] requests:
    the moderator's draft, then [n * rounds] times the very same request
    to the agents (each sees the draft only, never another agent's
    output), then the consolidation.  The protocol log has one entry per
    request, from "Initial Draft" to "Final Consolidation", whose output
    is the answer returned.  The agents of the panel are left as they
    were and the moderator is recorded once more. *)
Theorem brainstorming_protocol (self : Panel.panel) (system_prompt user_prompt : fstring)
        (rounds : Z) (w : world) :
  let n := (List.length (Panel.agents self) * Z.to_nat rounds)%nat in
  exists final_draft initial_draft middle self' w' agent_request final_request,
    Panel.seek_brainstorming client entropy self system_prompt user_prompt rounds w
    = (Ok (final_draft,
           (Panel.entry "Initial Draft" "Moderator" initial_draft :: middle
              ++ [Panel.entry "Final Consolidation" "Moderator" final_draft])%list,
           self'), w') /\
    List.length middle = n /\
    api_calls w' = (api_calls w + (2 + n))%nat /\
    requests_of (log w')
    = (requests_of (log w)
         ++ Request (Panel.panel_model_id self)
                    (two_messages system_prompt user_prompt) 4000
         :: repeat agent_request n ++ [final_request])%list /\
    Panel.agents self' = Panel.agents self /\
    Panel.tmp_agents self' = (Panel.tmp_agents self ++ [Panel.mod_agent0])%list.
Proof.
  intros n. unfold Panel.seek_brainstorming. cbv zeta.
  set (self1 := Panel.MkPanel (Panel.size self) (Panel.agents self) (Panel.history self)
                              (Panel.tmp_agents self ++ [Panel.mod_agent0])
                              (Panel.panel_model_id self)).
  unfold Panel.process at 1. unfold bind at 1.
  destruct (call_gpt_once self1 system_prompt user_prompt false w)
    as (initial_draft & w1 & -> & Hc1 & Hr1).
  unfold bind at 1.
  match goal with
  | |- context [for_each (Panel.brainstorming_round _ _ _ ?asys ?ausr) _ _] =>
      destruct (for_each_blocks
                  (Panel.brainstorming_round client entropy self1 asys ausr)
                  (Request (Panel.panel_model_id self1) (two_messages asys ausr) 4000)
                  (List.length (Panel.agents self1)) (range rounds)
                  (round_requests self1 asys ausr) w1)
        as (per_round & w2 & -> & Hlen & Hc2 & Hr2);
      set (agent_request := Request (Panel.panel_model_id self1)
                                    (two_messages asys ausr) 4000) in *
  end.
  unfold Panel.process. unfold bind at 1.
  match goal with
  | |- context [Panel.call_gpt _ _ _ ?fsys ?fusr true w2] =>
      destruct (call_gpt_once self1 fsys fusr true w2)
        as (final_draft & w3 & -> & Hc3 & Hr3);
      set (final_request := Request (Panel.panel_model_id self1)
                                    (two_messages fsys fusr) 4000) in *
  end.
  unfold ret.
  assert (Hn : (List.length (Panel.agents self1) * List.length (range rounds))%nat = n).
  { subst n. unfold range. now rewrite length_map, length_seq. }
  rewrite Hn in *.
  exists final_draft, initial_draft, (map snd (List.concat per_round)), self1, w3,
    agent_request, final_request.
  split.
  { reflexivity. }
  split; [now rewrite length_map|].
  split; [lia|].
  split; [|split; reflexivity].
  rewrite Hr3, Hr2, Hr1. rewrite <- !app_assoc. reflexivity.
Qed.

End WithService.
End PanelFacts.

Lemma brainstorming_protocol_witness :
  api_calls (snd (Panel.seek_brainstorming (constant_service good_reply) no_entropy
                    (Panel.init "gpt-4o" false 3) [Lit "Judge."] [Lit "Rate."] 1 world0))
  = 5%nat.
Proof.
  destruct (PanelFacts.brainstorming_protocol (constant_service good_reply) no_entropy
              (fun n r => ex_intro _ (Response good_reply) eq_refl)
              (Panel.init "gpt-4o" false 3) [Lit "Judge."] [Lit "Rate."] 1 world0)
    as (fd & id & middle & self' & w' & ar & fr & Hrun & _ & Hcalls & _).
  rewrite Hrun. exact Hcalls.
Defined.

(** ** The three steps of one criterion *)

Module ThreeStepFacts.
Section WithService.

Variable client : nat -> request -> api_outcome.
Variable entropy : nat -> Z.
Variable self : pipeline.
Hypothesis service_completes : always_completes client.
Hypothesis single : single_model self = true.



End WithService.
End ThreeStepFacts.


(** ** Grouping the discrepancy records *)


Module GroupingFacts.

Lemma key_eqb_refl (k : pyval) : hashable k = true -> key_eqb k k = true.
Proof.
  destruct k; cbn; try discriminate; intros _; try reflexivity.
  - destruct b; reflexivity.
  - apply Qeq_bool_iff. reflexivity.
  - apply Qeq_bool_iff. reflexivity.
  - apply String.eqb_refl.
Qed.

(** Appending a record keeps the groups distinct and well formed, and
    adds the record to exactly one of them. *)
Lemma group_append_invariant grouped error_type fb :
  hashable error_type = true ->
  Fitting.fb_criteria fb = error_type ->
  ForallOrdPairs distinct_keys grouped ->
  Forall well_grouped grouped ->
  ForallOrdPairs distinct_keys (Fitting.group_append grouped error_type fb) /\
  Forall well_grouped (Fitting.group_append grouped error_type fb) /\
  Permutation (List.concat (map snd (Fitting.group_append grouped error_type fb)))
              (fb :: List.concat (map snd grouped)) /\
  (forall x, Forall (fun g => distinct_keys x g) grouped ->
             key_eqb (fst x) error_type = false ->
             Forall (fun g => distinct_keys x g)
                    (Fitting.group_append grouped error_type fb)).
Proof.
  intros Hh Hfb. subst error_type. induction grouped as [|[k fbs] rest IH]; intros Hd Hw.
  - cbn [Fitting.group_append]. repeat split.
    + repeat constructor.
    + repeat constructor; cbn [fst snd]; [discriminate|].
      repeat constructor. now apply key_eqb_refl.
    + cbn. apply Permutation_refl.
    + intros x _ Hx. repeat constructor. exact Hx.
  - cbn [Fitting.group_append].
    inversion Hd as [|? ? Hk Hd']; subst. inversion Hw as [|? ? Hwk Hw']; subst.
    destruct (key_eqb k (Fitting.fb_criteria fb)) eqn:E.
    + repeat split.
      * constructor; [exact Hk | exact Hd'].
      * constructor; [|exact Hw'].
        destruct Hwk as [Hne Hall]. split; cbn [fst snd] in *.
        -- intros H. now destruct fbs.
        -- apply Forall_app. split; [exact Hall|].
           repeat constructor. exact E.
      * cbn [map snd List.concat].
        set (others := List.concat (map snd rest)).
        replace ((fbs ++ [fb]) ++ others)%list with (fbs ++ fb :: others)%list
          by (rewrite <- List.app_assoc; reflexivity).
        apply Permutation_sym, Permutation_cons_app, Permutation_refl.
      * intros x Hx _. inversion Hx; subst. constructor; assumption.
    + destruct (IH Hd' Hw') as (IHd & IHw & IHp & IHx).
      repeat split.
      * constructor; [|exact IHd]. apply IHx; [exact Hk | exact E].
      * constructor; assumption.
      * cbn [map snd List.concat].
        eapply Permutation_trans; [apply Permutation_app_head; exact IHp|].
        apply Permutation_sym. apply Permutation_middle.
      * intros x Hx Hxe. inversion Hx; subst.
        constructor; [assumption|]. now apply IHx.
Qed.

Lemma group_from_invariant feedback_list :
  Forall (fun fb => hashable (Fitting.fb_criteria fb) = true) feedback_list ->
  forall grouped,
    ForallOrdPairs distinct_keys grouped ->
    Forall well_grouped grouped ->
    exists grouped',
      Fitting.group_from grouped feedback_list = Ok grouped' /\
      ForallOrdPairs distinct_keys grouped' /\
      Forall well_grouped grouped' /\
      Permutation (List.concat (map snd grouped'))
                  (List.concat (map snd grouped) ++ feedback_list).
Proof.
  induction 1 as [|fb rest Hh _ IH]; intros grouped Hd Hw.
  - exists grouped. cbn. rewrite List.app_nil_r. auto.
  - cbn [Fitting.group_from]. rewrite Hh.
    destruct (group_append_invariant grouped (Fitting.fb_criteria fb) fb Hh eq_refl Hd Hw)
      as (Hd1 & Hw1 & Hp1 & _).
    destruct (IH _ Hd1 Hw1) as (g' & Hrun & Hd2 & Hw2 & Hp2).
    exists g'. repeat split; try assumption.
    eapply Permutation_trans; [exact Hp2|].
    eapply Permutation_trans; [apply Permutation_app_tail; exact Hp1|].
    cbn [app]. apply Permutation_middle.
Qed.

Lemma group_from_unhashable feedback_list :
  Exists (fun fb => hashable (Fitting.fb_criteria fb) = false) feedback_list ->
  forall grouped, Fitting.group_from grouped feedback_list = Raise TypeError.
Proof.
  induction feedback_list as [|fb rest IH]; intros Hex grouped.
  - inversion Hex.
  - cbn [Fitting.group_from].
    destruct (hashable (Fitting.fb_criteria fb)) eqn:E; [|reflexivity].
    apply IH. inversion Hex; subst; [congruence | assumption].
Qed.

(** X15. [group_feedback_by_error_type] partitions the records: when
    every criterion can be a dictionary key, the groups have pairwise
    unequal keys, none is empty, every record of a group has the
    criterion of the group, and the groups together hold each record of
    the input exactly once.  A criterion that is a list or a dictionary
    makes the call raise [TypeError]. *)
Theorem grouping_is_a_partition (feedback_list : list Fitting.feedback) :
  (Forall (fun fb => hashable (Fitting.fb_criteria fb) = true) feedback_list ->
   exists grouped,
     Fitting.group_feedback_by_error_type feedback_list = Ok grouped /\
     ForallOrdPairs distinct_keys grouped /\
     Forall well_grouped grouped /\
     Permutation (List.concat (map snd grouped)) feedback_list) /\
  (Exists (fun fb => hashable (Fitting.fb_criteria fb) = false) feedback_list ->
   Fitting.group_feedback_by_error_type feedback_list = Raise TypeError).
Proof.
  split.
  - intros Hall.
    destruct (group_from_invariant feedback_list Hall [])
      as (g & Hrun & Hd & Hw & Hp); [constructor | constructor |].
    exists g. auto.
  - intros Hex. now apply group_from_unhashable.
Qed.

End GroupingFacts.

Lemma grouping_is_a_partition_witness :
  exists grouped,
    Fitting.group_feedback_by_error_type
      [Fitting.Feedback (PStr "omission") ("Minor Difference", []) "ok";
       Fitting.Feedback (PStr "language") ("No Difference", []) "ok";
       Fitting.Feedback (PStr "omission") ("Major Difference", []) "poor"]
    = Ok grouped /\
    List.length (List.concat (map snd grouped)) = 3%nat.
Proof.
  destruct (GroupingFacts.grouping_is_a_partition
              [Fitting.Feedback (PStr "omission") ("Minor Difference", []) "ok";
               Fitting.Feedback (PStr "language") ("No Difference", []) "ok";
               Fitting.Feedback (PStr "omission") ("Major Difference", []) "poor"])
    as [Hpart _].
  destruct Hpart as (grouped & Hrun & _ & _ & Hperm); [repeat constructor|].
  exists grouped. split; [exact Hrun|].
  exact (Permutation_length Hperm).
Defined.

(** ** The distance between two ratings *)

Module DistanceFacts.

Lemma Qeq_bool_compat (a b c : Q) : a == b -> Qeq_bool a c = Qeq_bool b c.
Proof.
  intros H. destruct (Qeq_bool b c) eqn:E.
  - apply Qeq_bool_iff. apply Qeq_bool_iff in E. now rewrite H.
  - destruct (Qeq_bool a c) eqn:E'; [|reflexivity].
    apply Qeq_bool_iff in E'. rewrite H in E'. apply Qeq_bool_iff in E'. congruence.
Qed.

Lemma Qabs_swap (x y : Q) : Qabs (x - y) == Qabs (y - x).
Proof. rewrite <- (Qabs_opp (x - y)). apply Qabs_wd. ring. Qed.

(** X16. The category of the distance does not depend on which rating
    is the model's and which is the human's: swapping the two arguments of
    [likert_score_feedback] gives the same category, and the same
    [TypeError] when one of them is not a number. *)
Theorem category_is_symmetric (a b : pyval) :
  category (Fitting.likert_score_feedback a b)
  = category (Fitting.likert_score_feedback b a).
Proof.
  unfold Fitting.likert_score_feedback.
  destruct (py_num a) as [x|e] eqn:Ha; destruct (py_num b) as [y|e'] eqn:Hb;
    cbn [rbind category].
  - rewrite (Qeq_bool_compat _ _ 0 (Qabs_swap y x)),
            (Qeq_bool_compat _ _ 1 (Qabs_swap y x)),
            (Qeq_bool_compat _ _ 2 (Qabs_swap y x)).
    destruct (Qeq_bool x 0), (Qle_bool 1 y), (Qle_bool 1 x), (Qeq_bool y 0);
      cbn [andb category]; try reflexivity;
      destruct (Qeq_bool (Qabs (x - y)) 0); try reflexivity;
      destruct (Qeq_bool (Qabs (x - y)) 1); try reflexivity;
      destruct (Qeq_bool (Qabs (x - y)) 2); reflexivity.
  - destruct b; cbn in Hb; congruence.
  - destruct a; cbn in Ha; congruence.
  - destruct a; cbn in Ha; try congruence; destruct b; cbn in Hb; congruence.
Qed.


End DistanceFacts.


(** ** Human judgments that are missing where some are given *)

Module HumanScoresFacts.
Section WithService.

Variable client : nat -> request -> api_outcome.
Variable entropy : nat -> Z.
Variable model_id : string.


End WithService.
End HumanScoresFacts.


(** ** What the loaders build *)

Module LoadingFacts.

Lemma dict_set_keys (d : pydict) (k : string) (v : pyval) :
  map fst (dict_set d k v)
  = if existsb (String.eqb k) (map fst d) then map fst d else (map fst d ++ [k])%list.
Proof.
  induction d as [|[k' v'] d IH]; [reflexivity|].
  cbn [dict_set map fst existsb].
  rewrite (String.eqb_sym k k'). destruct (String.eqb k' k); [reflexivity|].
  cbn [orb map fst]. rewrite IH.
  destruct (existsb (String.eqb k) (map fst d)); reflexivity.
Qed.

Lemma existsb_eqb_In (k : string) (l : list string) :
  existsb (String.eqb k) l = true <-> In k l.
Proof.
  rewrite existsb_exists. split.
  - intros (x & Hx & E). apply String.eqb_eq in E. now subst.
  - intros H. exists k. split; [exact H | apply String.eqb_refl].
Qed.

Lemma dict_set_In (d : pydict) (k : string) (v : pyval) (x : string) :
  In x (map fst (dict_set d k v)) <-> x = k \/ In x (map fst d).
Proof.
  rewrite dict_set_keys.
  destruct (existsb (String.eqb k) (map fst d)) eqn:E.
  - apply existsb_eqb_In in E. split; [auto|]. intros [-> | H]; assumption.
  - rewrite in_app_iff. cbn. intuition.
Qed.

Lemma dict_set_NoDup (d : pydict) (k : string) (v : pyval) :
  NoDup (map fst d) -> NoDup (map fst (dict_set d k v)).
Proof.
  intros H. rewrite dict_set_keys.
  destruct (existsb (String.eqb k) (map fst d)) eqn:E; [exact H|].
  apply NoDup_app; [exact H | repeat constructor; intros [] |].
  intros x Hx [<- | []].
  apply existsb_eqb_In in Hx. congruence.
Qed.

(** Looking up the key just set gives the value set. *)
Lemma dict_find_set (d : pydict) (k : string) (v : pyval) :
  dict_find (dict_set d k v) k = Some v.
Proof.
  induction d as [|[k' v'] d IH]; cbn [dict_set dict_find].
  - now rewrite String.eqb_refl.
  - destruct (String.eqb k' k) eqn:E; cbn [dict_find]; rewrite E; [reflexivity | exact IH].
Qed.

Lemma before_first_free (sep : ascii) (s : string) :
  mem_char sep (before_first sep s) = false.
Proof.
  induction s as [|c s IH]; [reflexivity|].
  cbn [before_first]. destruct (Ascii.eqb c sep) eqn:E; [reflexivity|].
  cbn [mem_char]. rewrite Ascii.eqb_sym, E. exact IH.
Qed.

(** The keys built by the loop of [_load_criteria]. *)
Lemma load_criteria_from_keys (files : directory) :
  forall acc d,
    Loading.load_criteria_from acc files = Ok d ->
    (NoDup (map fst acc) -> NoDup (map fst d)) /\
    (forall k, In k (map fst d)
               <-> In k (map fst acc) \/ In k (Loading.fitting_load_criteria files)).
Proof.
  induction files as [|[file text] rest IH]; intros acc d Hrun.
  - cbn in Hrun. injection Hrun as <-. split; [auto|]. cbn. intuition.
  - cbn [Loading.load_criteria_from] in Hrun.
    unfold Loading.fitting_load_criteria. cbn [filter fst].
    destruct (ends_with ".json" file) eqn:E.
    + destruct (json_load text) as [data|]; [|discriminate]. cbn [rbind] in Hrun.
      destruct (py_get data "definition" (PStr EmptyString)) as [definition|];
        [|discriminate].
      cbn [rbind] in Hrun. destruct (IH _ _ Hrun) as [Hnd Hin]. split.
      * intros H. apply Hnd. now apply dict_set_NoDup.
      * intros k. rewrite Hin, dict_set_In. cbn [map fst In].
        unfold Loading.fitting_load_criteria. intuition.
    + destruct (IH _ _ Hrun) as [Hnd Hin]. split; [exact Hnd|].
      intros k. rewrite Hin. unfold Loading.fitting_load_criteria. reflexivity.
Qed.

Lemma load_criteria_from_total (files : directory) :
  Forall (fun entry =>
            ends_with ".json" (fst entry) = true ->
            exists d, Json.loads (snd entry) = Some (PDict d)) files ->
  forall acc, exists d, Loading.load_criteria_from acc files = Ok d.
Proof.
  induction 1 as [|[file text] rest Hfile _ IH]; intros acc.
  - now exists acc.
  - cbn [Loading.load_criteria_from]. cbn [fst snd] in Hfile.
    destruct (ends_with ".json" file); [|apply IH].
    destruct (Hfile eq_refl) as (d0 & Hd0). unfold json_load. rewrite Hd0.
    cbn [rbind py_get]. destruct (dict_find d0 "definition"); cbn [rbind]; apply IH.
Qed.

(** X19. [_load_criteria] returns a dictionary when every [.json] file
    of the directory holds a JSON object.  Whenever it returns one, its
    keys are pairwise different, they are exactly the names
    [Fitting._load_criteria] lists for the same directory (the part of a
    [.json] file's name before its first dot; the other files are
    ignored), and no key contains a dot. *)
Theorem load_criteria_keys (files : directory) :
  (Forall (fun entry =>
             ends_with ".json" (fst entry) = true ->
             exists d, Json.loads (snd entry) = Some (PDict d)) files ->
   exists d, Loading._load_criteria files = Ok d) /\
  (forall d,
      Loading._load_criteria files = Ok d ->
      NoDup (map fst d) /\
      (forall k, In k (map fst d) <-> In k (Loading.fitting_load_criteria files)) /\
      (forall k, In k (map fst d) -> mem_char "." k = false)).
Proof.
  split.
  - intros H. now apply load_criteria_from_total.
  - intros d Hrun. destruct (load_criteria_from_keys files [] d Hrun) as [Hnd Hin].
    split; [apply Hnd; constructor|].
    assert (Hk : forall k, In k (map fst d) <-> In k (Loading.fitting_load_criteria files)).
    { intros k. rewrite Hin. cbn. intuition. }
    split; [exact Hk|].
    intros k Hkin. apply Hk in Hkin. unfold Loading.fitting_load_criteria in Hkin.
    apply in_map_iff in Hkin as (entry & <- & _). apply before_first_free.
Qed.

End LoadingFacts.

Lemma load_criteria_keys_witness :
  exists d,
    Loading._load_criteria
      [("omission.json", qt "{'definition': 'Missing content.'}");
       ("notes.txt", "not a criterion");
       ("omission.v2.json", qt "{'definition': 'Missing content, revised.'}")]
    = Ok d /\
    map fst d = ["omission"].
Proof.
  destruct (LoadingFacts.load_criteria_keys
              [("omission.json", qt "{'definition': 'Missing content.'}");
               ("notes.txt", "not a criterion");
               ("omission.v2.json", qt "{'definition': 'Missing content, revised.'}")])
    as [Htotal _].
  destruct Htotal as (d & Hd).
  - apply Forall_cons; [intros _; eexists; vm_compute; reflexivity|].
    apply Forall_cons; [intros H; vm_compute in H; discriminate H|].
    apply Forall_cons; [intros _; eexists; vm_compute; reflexivity|].
    apply Forall_nil.
  - exists d. split; [exact Hd|].
    vm_compute in Hd. injection Hd as <-. reflexivity.
Defined.

(** ** Repeating a run *)

Module RepeatFacts.

Lemma wi_ret {A} (a : A) : world_independent (ret a).
Proof. intros w1 w2. reflexivity. Qed.

Lemma wi_lift {A} (r : result A) : world_independent (lift r).
Proof. intros w1 w2. reflexivity. Qed.

Lemma wi_bind {A B} (m : M A) (k : A -> M B) :
  world_independent m -> (forall a, world_independent (k a)) ->
  world_independent (bind m k).
Proof.
  intros Hm Hk w1 w2. unfold bind. specialize (Hm w1 w2).
  destruct (m w1) as [[a1|e1] w1'], (m w2) as [[a2|e2] w2']; cbn [fst] in Hm;
    try discriminate.
  - injection Hm as ->. apply Hk.
  - cbn [fst]. injection Hm as ->. reflexivity.
Qed.

Lemma wi_for_each {A B} (f : A -> M B) (l : list A) :
  (forall a, world_independent (f a)) -> world_independent (for_each f l).
Proof.
  intros Hf. induction l as [|a l IH]; cbn [for_each].
  - apply wi_ret.
  - apply wi_bind; [apply Hf|]. intros b.
    apply wi_bind; [exact IH|]. intros bs. apply wi_ret.
Qed.

Section WithService.

Variable client : nat -> request -> api_outcome.
Variable entropy : nat -> Z.
Hypothesis service_stateless : stateless client.

Lemma wi_attempts messages model max_tokens attempts :
  Forall (fun a => 0 <= a) attempts ->
  world_independent
    (ModelHandler.for_attempts client entropy messages model max_tokens 3 attempts).
Proof.
  induction 1 as [|a rest Ha _ IH]; intros w1 w2; [reflexivity|].
  cbn [ModelHandler.for_attempts]. unfold bind at 1. unfold bind at 1.
  pose proof (service_stateless (api_calls w1) (api_calls w2)
                (Request model messages max_tokens)) as Hsame.
  destruct (client (api_calls w2) (Request model messages max_tokens))
    as [r|message] eqn:Hc.
  - rewrite (RetryFacts.body_success client entropy messages model max_tokens 3
               ltac:(discriminate) a w1 r Hsame).
    rewrite (RetryFacts.body_success client entropy messages model max_tokens 3
               ltac:(discriminate) a w2 r Hc).
    reflexivity.
  - destruct (contains "429" message) eqn:H429.
    + rewrite (RetryFacts.body_rate_limited client entropy messages model max_tokens 3
                 ltac:(discriminate) a w1 Ha); [|now exists message].
      rewrite (RetryFacts.body_rate_limited client entropy messages model max_tokens 3
                 ltac:(discriminate) a w2 Ha); [|now exists message].
      apply IH.
    + rewrite (RetryFacts.body_other_error client entropy messages model max_tokens 3
                 ltac:(discriminate) a w1 message Hsame H429).
      rewrite (RetryFacts.body_other_error client entropy messages model max_tokens 3
                 ltac:(discriminate) a w2 message Hc H429).
      reflexivity.
Qed.

Lemma wi_call_model messages model max_tokens :
  world_independent (ModelHandler.call_model client entropy messages model max_tokens).
Proof.
  unfold ModelHandler.call_model, ModelHandler.call_model_with_retry.
  apply wi_attempts. apply RetryFacts.range_nonneg.
Qed.

(** X20. With a service that answers a request the same way whenever it
    is sent, the result of a run (the list of assessments or the
    exception) is the same in whatever state the run starts: how many
    requests were sent before, how many random numbers were drawn and what
    the log holds do not matter.  This holds for the one-by-one and the
    all-at-once pipelines and for the loop of the three-step pipeline in
    single-model mode. *)
Theorem runs_are_repeatable (self : pipeline) (data : sample) :
  world_independent (BaselinePipeline.run client entropy self data) /\
  world_independent (SimpleBaselinePipeline.run client entropy self data) /\
  (single_model self = true ->
   world_independent (EvalPipeline.collect_scores client entropy self data)).
Proof.
  split; [|split].
  - unfold BaselinePipeline.run. apply wi_for_each. intros [name definition].
    apply wi_bind; [|intros; apply wi_ret].
    unfold BaselinePipeline.pipeline.
    apply wi_bind; [apply wi_call_model|]. intros response_raw.
    apply wi_bind; [apply wi_lift|]. intros text.
    destruct (Json.loads _); apply wi_ret.
  - unfold SimpleBaselinePipeline.run.
    apply wi_bind.
    + unfold SimpleBaselinePipeline.pipeline.
      apply wi_bind; [apply wi_call_model|]. intros response_raw.
      apply wi_bind; [apply wi_lift|]. intros text.
      destruct (Json.loads _); apply wi_ret.
    + intros score. apply wi_bind; [apply wi_lift|]. intros items.
      apply wi_for_each. intros [name details].
      unfold SimpleBaselinePipeline.assessment.
      repeat (apply wi_bind; [apply wi_lift|]; intros ?). apply wi_ret.
  - intros Hsingle.
    assert (Htask : forall s u,
               world_independent (EvalPipeline.task_execution client entropy self s u)).
    { intros s u. unfold EvalPipeline.task_execution. rewrite Hsingle.
      apply wi_bind; [apply wi_call_model|]. intros response_raw.
      apply wi_bind; [apply wi_lift|]. intros text.
      destruct (Json.loads _); apply wi_ret. }
    unfold EvalPipeline.collect_scores. apply wi_for_each. intros name.
    apply wi_bind.
    + unfold EvalPipeline.pipeline. cbv zeta.
      apply wi_bind; [apply wi_lift|]. intros definition.
      apply wi_bind; [apply Htask|]. intros [instances log1].
      apply wi_bind; [apply Htask|]. intros [filtered log2].
      apply wi_bind; [apply Htask|]. intros [final log3].
      repeat (apply wi_bind; [apply wi_lift|]; intros ?). apply wi_ret.
    + intros [[[score selection] filter_output] protocol]. apply wi_ret.
Qed.

End WithService.
End RepeatFacts.

Lemma runs_are_repeatable_witness :
  fst (BaselinePipeline.run (constant_service good_reply) no_entropy demo_pipeline
         demo_sample world0)
  = fst (BaselinePipeline.run (constant_service good_reply) no_entropy demo_pipeline
           demo_sample (World 7 3 [Slept 1])).
Proof.
  exact (proj1 (RepeatFacts.runs_are_repeatable (constant_service good_reply) no_entropy
                  (fun n m r => eq_refl) demo_pipeline demo_sample)
               world0 (World 7 3 [Slept 1])).
Defined.

(** ** The protocol of a conclusion *)

Module ConclusionFacts.
Section WithService.

Variable client : nat -> request -> api_outcome.
Variable entropy : nat -> Z.
Hypothesis service_completes : always_completes client.

Lemma conclusion_round_requests self agent_system_prompt agent_user_prompt round_num w :
  exists entries w',
    Panel.conclusion_round client entropy self agent_system_prompt
                           agent_user_prompt round_num w = (Ok entries, w') /\
    List.length entries = List.length (Panel.agents self) /\
    api_calls w' = (api_calls w + List.length (Panel.agents self))%nat /\
    requests_of (log w')
    = (requests_of (log w)
         ++ repeat (Request (Panel.panel_model_id self)
                            (two_messages agent_system_prompt agent_user_prompt) 4000)
                   (List.length (Panel.agents self)))%list.
Proof.
  unfold Panel.conclusion_round, Panel.process.
  induction (Panel.agents self) as [|a l IH] in w |- *.
  - exists [], w. cbn. rewrite Nat.add_0_r, List.app_nil_r. auto.
  - cbn [for_each]. unfold bind at 1. unfold bind at 1.
    destruct (PanelFacts.call_gpt_once client entropy service_completes self
                agent_system_prompt agent_user_prompt true w)
      as (out & w1 & -> & Hc & Hr).
    unfold ret at 1. unfold bind at 1.
    destruct (IH w1) as (outs & w2 & -> & Hlen & Hc2 & Hr2).
    eexists _, w2. split; [reflexivity|]. cbn [List.length repeat].
    split; [now rewrite Hlen|]. split; [lia|].
    rewrite Hr2, Hr, <- app_assoc. reflexivity.
Qed.

(** X21. On a service that completes every request, a conclusion with
    [n] agents and [rounds] rounds sends [n * rounds + 1] requests.  The
    agents all receive the same request, made of a fixed system prompt
    (not the caller's) and the caller's user prompt; the moderator then
    receives the caller's prompts followed by the entries of all the
    agents.  The log ends with the entry "Final Conclusion", whose output
    is the answer returned.  A moderator is recorded only if the panel had
    none. *)
Theorem conclusion_protocol (self : Panel.panel) (system_prompt user_prompt : fstring)
        (rounds : Z) (w : world) :
  let n := (List.length (Panel.agents self) * Z.to_nat rounds)%nat in
  exists final_answer middle self' w' agent_system_prompt,
    Panel.seek_conclusion client entropy self system_prompt user_prompt rounds w
    = (Ok (final_answer,
           (middle ++ [Panel.entry "Final Conclusion" "Moderator" final_answer])%list,
           self'), w') /\
    List.length middle = n /\
    api_calls w' = (api_calls w + (n + 1))%nat /\
    (forall v, ~ In (Val v) agent_system_prompt) /\
    requests_of (log w')
    = (requests_of (log w)
         ++ repeat (Request (Panel.panel_model_id self)
                            (two_messages agent_system_prompt user_prompt) 4000) n
         ++ [Request (Panel.panel_model_id self)
                     (two_messages
                        (system_prompt ++
                         [Lit (nl ++ "Now that the agents have provided scores, please finalize the conclusion.")])
                        (user_prompt ++
                         [Lit (nl ++ " Agents' feedback: "); Val (PList middle)]))
                     4000])%list /\
    Panel.agents self' = Panel.agents self /\
    Panel.tmp_agents self'
    = match Panel.tmp_agents self with
      | [] => [Panel.mod_agent0]
      | existing => existing
      end.
Proof.
  intros n. unfold Panel.seek_conclusion. cbv zeta.
  unfold bind at 1.
  match goal with
  | |- context [for_each (Panel.conclusion_round _ _ _ ?asys ?ausr) _ _] =>
      destruct (PanelFacts.for_each_blocks
                  (Panel.conclusion_round client entropy self asys ausr)
                  (Request (Panel.panel_model_id self) (two_messages asys ausr) 4000)
                  (List.length (Panel.agents self)) (range rounds)
                  (conclusion_round_requests self asys ausr) w)
        as (per_round & w1 & -> & Hlen & Hc1 & Hr1);
      set (agent_system_prompt := asys) in *
  end.
  assert (Hn : (List.length (Panel.agents self) * List.length (range rounds))%nat = n).
  { subst n. unfold range. now rewrite length_map, length_seq. }
  rewrite Hn in *.
  set (self1 := match Panel.tmp_agents self with
                | [] => Panel.MkPanel (Panel.size self) (Panel.agents self)
                                      (Panel.history self) [Panel.mod_agent0]
                                      (Panel.panel_model_id self)
                | _ :: _ => self
                end).
  unfold Panel.process. unfold bind at 1.
  match goal with
  | |- context [Panel.call_gpt _ _ _ ?fsys ?fusr true w1] =>
      destruct (PanelFacts.call_gpt_once client entropy service_completes self1
                  fsys fusr true w1)
        as (final_answer & w2 & -> & Hc2 & Hr2)
  end.
  unfold ret.
  assert (Hid : Panel.panel_model_id self1 = Panel.panel_model_id self)
    by (subst self1; destruct (Panel.tmp_agents self); reflexivity).
  exists final_answer, (List.concat per_round), self1, w2, agent_system_prompt.
  split; [reflexivity|]. split; [exact Hlen|]. split; [lia|].
  split.
  { intros v [H|[]]. discriminate H. }
  split.
  { rewrite Hr2, Hr1, Hid, <- app_assoc. reflexivity. }
  split; subst self1; destruct (Panel.tmp_agents self) eqn:E; cbn;
    try rewrite E; reflexivity.
Qed.

End WithService.
End ConclusionFacts.

Lemma conclusion_protocol_witness :
  api_calls (snd (Panel.seek_conclusion (constant_service good_reply) no_entropy
                    (Panel.init "gpt-4o" false 3) [Lit "Judge."] [Lit "Rate."] 2 world0))
  = 7%nat.
Proof.
  destruct (ConclusionFacts.conclusion_protocol (constant_service good_reply) no_entropy
              (fun n r => ex_intro _ (Response good_reply) eq_refl)
              (Panel.init "gpt-4o" false 3) [Lit "Judge."] [Lit "Rate."] 2 world0)
    as (fa & middle & self' & w' & asys & Hrun & _ & Hcalls & _).
  rewrite Hrun. exact Hcalls.
Defined.

(** ** Loading the in-context examples of the three-step pipeline *)

Module ExamplesFacts.

Lemma items_with_a_stranger (items : list (string * pyval)) :
  Exists (fun kv => forall d, snd kv <> PDict d) items ->
  forall acc, Loading.learning_samples_of_items acc items = Raise AttributeError.
Proof.
  induction items as [|[k v] rest IH]; intros Hex acc.
  - inversion Hex.
  - cbn [Loading.learning_samples_of_items].
    destruct v; try reflexivity.
    cbn [py_get]. destruct (dict_find d "suggestions"); cbn [rbind];
      apply IH; inversion Hex as [? ? Hhead|]; subst; try assumption;
      exfalso; now apply (Hhead d).
Qed.

Lemma items_all_objects (items : list (string * pyval)) :
  Forall (fun kv => exists d, snd kv = PDict d) items ->
  forall acc,
    NoDup (map fst acc) ->
    exists samples,
      Loading.learning_samples_of_items acc items = Ok samples /\
      NoDup (map fst samples) /\
      (List.length samples <= List.length acc + List.length items)%nat.
Proof.
  induction 1 as [|[k v] rest (d & Hd) _ IH]; intros acc Hacc.
  - exists acc. cbn. split; [reflexivity|]. split; [exact Hacc | lia].
  - cbn [Loading.learning_samples_of_items]. cbn [snd] in Hd. subst v.
    cbn [py_get].
    assert (Hlen : forall key value,
               (List.length (dict_set acc key value) <= S (List.length acc))%nat).
    { intros key value. rewrite <- (length_map fst (dict_set acc key value)),
        LoadingFacts.dict_set_keys.
      destruct (existsb _ _); rewrite ?length_app, !length_map; cbn; lia. }
    destruct (dict_find d "suggestions") as [suggestion|]; cbn [rbind];
      match goal with
      | |- context [dict_set acc ?key ?value] =>
          destruct (IH (dict_set acc key value)
                       (LoadingFacts.dict_set_NoDup acc key value Hacc))
            as (samples & -> & Hnd & Hle);
          specialize (Hlen key value)
      end;
      exists samples; (split; [reflexivity|]); (split; [exact Hnd|]);
      cbn [List.length]; lia.
Qed.

(** X22. [_load_learning_samples_from_csv] catches the decoding error
    only.  A missing file and a file that is not JSON give the empty
    dictionary; a JSON file that is not an object, or an object one of
    whose values is not an object, raises [AttributeError]; an object of
    objects gives a dictionary with pairwise different keys, at most one
    per item of the file. *)
Theorem examples_file_outcomes :
  Loading._load_learning_samples_from_csv None = Ok [] /\
  (forall content,
      Json.loads content = None ->
      Loading._load_learning_samples_from_csv (Some content) = Ok []) /\
  (forall content data,
      Json.loads content = Some data -> (forall items, data <> PDict items) ->
      Loading._load_learning_samples_from_csv (Some content) = Raise AttributeError) /\
  (forall content items,
      Json.loads content = Some (PDict items) ->
      Exists (fun kv => forall d, snd kv <> PDict d) items ->
      Loading._load_learning_samples_from_csv (Some content) = Raise AttributeError) /\
  (forall content items,
      Json.loads content = Some (PDict items) ->
      Forall (fun kv => exists d, snd kv = PDict d) items ->
      exists samples,
        Loading._load_learning_samples_from_csv (Some content) = Ok samples /\
        NoDup (map fst samples) /\
        (List.length samples <= List.length items)%nat).
Proof.
  split; [reflexivity|]. split; [|split; [|split]].
  - intros content H. unfold Loading._load_learning_samples_from_csv. now rewrite H.
  - intros content data H Hnd. unfold Loading._load_learning_samples_from_csv.
    rewrite H. destruct data; try reflexivity. exfalso. now apply (Hnd d).
  - intros content items H Hex. unfold Loading._load_learning_samples_from_csv.
    rewrite H. cbn [py_items rbind]. now apply items_with_a_stranger.
  - intros content items H Hall. unfold Loading._load_learning_samples_from_csv.
    rewrite H. cbn [py_items rbind].
    destruct (items_all_objects items Hall [] ltac:(constructor))
      as (samples & Hrun & Hnd & Hle).
    exists samples. auto.
Qed.

End ExamplesFacts.

Lemma examples_file_outcomes_witness :
  Loading._load_learning_samples_from_csv (Some "criterion,suggestion") = Ok [] /\
  Loading._load_learning_samples_from_csv (Some (qt "['omission']")) = Raise AttributeError.
Proof.
  destruct ExamplesFacts.examples_file_outcomes as (_ & Hbad & Hshape & _).
  split.
  - apply Hbad. reflexivity.
  - apply (Hshape _ (PList [PStr "omission"])); [reflexivity | discriminate].
Defined.

(** ** Loading the in-context examples of the baseline pipelines *)

Module SamplesFacts.

Lemma dict_set_entries (d : pydict) (k : string) (v : pyval) (x : string) (y : pyval) :
  In (x, y) (dict_set d k v) -> In (x, y) d \/ (x = k /\ y = v).
Proof.
  induction d as [|[k' v'] d IH]; cbn [dict_set].
  - intros [[= <- <-]|[]]. now right.
  - destruct (String.eqb k' k) eqn:E.
    + apply String.eqb_eq in E. subst k'.
      intros [[= <- <-]|H]; [now right | left; now right].
    + intros [H|H]; [left; now left|].
      destruct (IH H) as [H'|H']; [left; now right | now right].
Qed.

(** An entry of the loaded examples: a key without underscore and a
    dictionary of a score and a reasoning. *)
Local Abbreviation loaded_entry :=
  (fun entry : string * pyval =>
     mem_char "_" (fst entry) = false /\
     exists likert_score reasoning,
       snd entry = PDict [("likert_score", likert_score); ("reasoning", reasoning)]).

Lemma load_learning_samples_invariant (files : directory) :
  forall acc samples,
    Loading.load_learning_samples_from acc files = Ok samples ->
    NoDup (map fst acc) -> Forall loaded_entry acc ->
    NoDup (map fst samples) /\ Forall loaded_entry samples.
Proof.
  induction files as [|[file text] rest IH]; intros acc samples Hrun Hnd Hall.
  - cbn in Hrun. injection Hrun as <-. auto.
  - cbn [Loading.load_learning_samples_from] in Hrun.
    destruct (ends_with ".json" file); [|now apply (IH acc)].
    destruct (json_load text) as [data|]; [|discriminate]. cbn [rbind] in Hrun.
    destruct (first_item data) as [first|]; [|discriminate]. cbn [rbind] in Hrun.
    destruct (py_get first "likert_score" PNone) as [likert_score|]; [|discriminate].
    cbn [rbind] in Hrun.
    destruct (py_get first "reasoning" PNone) as [reasoning|]; [|discriminate].
    cbn [rbind] in Hrun.
    apply (IH _ _ Hrun).
    + now apply LoadingFacts.dict_set_NoDup.
    + apply Forall_forall. intros [x y] Hin.
      destruct (dict_set_entries _ _ _ _ _ Hin) as [Hold|[-> ->]].
      * rewrite Forall_forall in Hall. now apply Hall.
      * cbn [fst snd]. split; [apply LoadingFacts.before_first_free|].
        now exists likert_score, reasoning.
Qed.

(** X23. [_load_learning_samples] gives the empty dictionary for a path
    that is not a directory.  Whenever it returns for a directory, the
    keys are pairwise different and contain no underscore, and every
    value is a dictionary with exactly the entries [likert_score] and
    [reasoning].  A [.json] file that holds an empty list makes it raise
    [IndexError]. *)
Theorem learning_samples_shape :
  Loading._load_learning_samples None = Ok [] /\
  (forall files samples,
      Loading._load_learning_samples (Some files) = Ok samples ->
      NoDup (map fst samples) /\
      Forall (fun entry =>
                mem_char "_" (fst entry) = false /\
                exists likert_score reasoning,
                  snd entry = PDict [("likert_score", likert_score);
                                     ("reasoning", reasoning)]) samples) /\
  (forall file text rest,
      ends_with ".json" file = true ->
      Json.loads text = Some (PList []) ->
      Loading._load_learning_samples (Some ((file, text) :: rest)) = Raise IndexError).
Proof.
  split; [reflexivity|]. split.
  - intros files samples Hrun.
    apply (load_learning_samples_invariant files [] samples Hrun); constructor.
  - intros file text rest Hjson Hempty.
    unfold Loading._load_learning_samples. cbn [Loading.load_learning_samples_from].
    rewrite Hjson. unfold json_load. rewrite Hempty. reflexivity.
Qed.

End SamplesFacts.

Lemma learning_samples_shape_witness :
  exists samples,
    Loading._load_learning_samples
      (Some [("omission_fss.json",
              qt "[{'likert_score': 3, 'reasoning': 'Two decisions are missing.'}]")])
    = Ok samples /\
    NoDup (map fst samples).
Proof.
  destruct (Loading._load_learning_samples
              (Some [("omission_fss.json",
                      qt "[{'likert_score': 3, 'reasoning': 'Two decisions are missing.'}]")]))
    as [samples|e] eqn:Hrun.
  - exists samples. split; [reflexivity|].
    destruct SamplesFacts.learning_samples_shape as (_ & Hshape & _).
    exact (proj1 (Hshape _ _ Hrun)).
  - vm_compute in Hrun. discriminate Hrun.
Defined.

Lemma no_attempt_no_request_witness :
  ModelHandler.call_model_with_retry (failing_service "Error code: 429") no_entropy
                                     [] "gpt-4o" 1000 0 (-1) world0
  = (Ok None, world0).
Proof.
  apply RetryEdges.no_attempt_no_request. lia.
Defined.

Lemma negative_base_delay_raises_witness :
  exists w',
    ModelHandler.call_model_with_retry (constant_service good_reply) no_entropy
                                       [] "gpt-4o" 1000 6 (-1) world0
    = (Raise ValueError, w') /\
    api_calls w' = 1%nat.
Proof.
  destruct (RetryEdges.negative_base_delay_raises (constant_service good_reply)
              no_entropy [] "gpt-4o" 1000 6 (-1) world0)
    as (w' & Hrun & Hcalls & _).
  - lia.
  - reflexivity.
  - exists w'. split; [exact Hrun | exact Hcalls].
Defined.
